(** * WorldcoinTelegramBot: the price-tracking and alert engine

    A shallow embedding of [src/telegram_WC_Bot.py] (class
    [WorldcoinTelegramBot]) and the properties of its registry, its rolling
    price history and its poll loop.

    Numbers.  The bot handles Python numbers: the price decoded from the
    JSON reply (an [int] or a [float]) and the [float] samples of the history.
    In the state of the bot they are embedded as canonical rationals [Qc]:
    the registry, the alerts and the poll loop only store, compare and
    truncate them, which is exact in Python; NaN and the infinities are not
    values of this part.  The two functions that compute with the samples,
    [get_price_trend] and [get_price_stats], round in binary64: they are
    embedded on primitive binary64 floats in the module [F64].  Python's
    [int(x)] is truncation toward zero ([py_int]); the user identifiers and
    [last_notification_price] are integers ([Z]).

    State.  [self.tracking_users] is a dict from user id to a record; it is a
    [gmap Z UserData].  The records and the alert dicts are mutated in place
    in the source; since every one of them is reachable through the registry
    only, an in-place mutation is an update of the registry at that user.

    Environment.  [get_worldcoin_price] is an HTTP request: its answer
    ([None] on every failure) is an input of each operation that performs it.
    [self.bot.send_message] is the chat transport: a [Dispatcher] whose calls
    may raise. *)

From Stdlib Require Import ZArith QArith Qcanon Qround List Lia.
From stdpp Require Import base numbers option list gmap fin_maps.
Import ListNotations.

(** ** Python numbers *)

Module PyNum.

(** [int(x)]: the integer part, rounding toward zero. *)
Definition py_int (x : Qc) : Z := Z.quot (Qnum (this x)) (Zpos (Qden (this x))).

(** The mathematical floor, to compare [py_int] with. *)
Definition floor (x : Qc) : Z := Qfloor (this x).

(** [float(x)]: the value is kept. *)
Definition py_float (x : Qc) : Qc := x.

(** Decimal literals: [dec n d] is the rational [n/d]. *)
Definition dec (n : Z) (d : positive) : Qc := Q2Qc (n # d).

Definition of_Z (n : Z) : Qc := Q2Qc (inject_Z n).

End PyNum.
Export PyNum.

(** ** Data model *)

(** An alert dict [{'target': ..., 'triggered': ...}]. *)
Record Alert := mkAlert { target : Qc; triggered : bool }.

(** A user record [{'last_notification_price', 'tracking', 'alerts'}]. *)
Record UserData := mkUserData {
  last_notification_price : Z;
  tracking : bool;
  alerts : list Alert
}.

(** The attributes of the bot that the engine reads and writes. *)
Record Bot := mkBot {
  tracking_users : gmap Z UserData;
  price_history : list Qc
}.

(** The state after [__init__]. *)
Definition init : Bot := {| tracking_users := ∅; price_history := [] |}.

Definition set_tracking_users (b : Bot) (r : gmap Z UserData) : Bot :=
  {| tracking_users := r; price_history := price_history b |}.

Definition set_price_history (b : Bot) (h : list Qc) : Bot :=
  {| tracking_users := tracking_users b; price_history := h |}.

(** The exceptions that the embedded methods can raise. *)
Inductive exn := TypeError | ZeroDivisionError | IndexError.

Inductive result (A : Type) :=
| Ok (a : A)
| Raise (e : exn).
Arguments Ok {A} a.
Arguments Raise {A} e.

(** The texts sent to a user, by the values that the f-strings print. *)
Inductive message :=
| IncreaseMsg (current_price : Qc)
| TargetMsg (current_price : Qc) (alert_target : Qc).

(** The answers of [get_price_trend]: the five labels carry the change that
    the f-string prints (the stable one prints none). *)
Inductive trend :=
| InsufficientData
| StrongUpward (change : Qc)
| SlightUpward (change : Qc)
| StrongDownward (change : Qc)
| SlightDownward (change : Qc)
| StablePrice.

(** ** The registry operations *)

(** [set_price_alert(user_id, target_price)].  For an unknown user the record
    is built from [int(self.get_worldcoin_price())]: when the fetch answers
    [None], [int(None)] raises [TypeError] before anything is stored. *)
Definition set_price_alert (fetched : option Qc) (user_id : Z) (target_price : Qc)
    (b : Bot) : result unit * Bot :=
  let new_alert := {| target := py_float target_price; triggered := false |} in
  match tracking_users b !! user_id with
  | None =>
      match fetched with
      | None => (Raise TypeError, b)
      | Some p =>
          let rec := {| last_notification_price := py_int p;
                        tracking := true;
                        alerts := [] ++ [new_alert] |} in
          (Ok tt, set_tracking_users b (<[user_id := rec]> (tracking_users b)))
      end
  | Some ud =>
      let rec := {| last_notification_price := last_notification_price ud;
                    tracking := tracking ud;
                    alerts := alerts ud ++ [new_alert] |} in
      (Ok tt, set_tracking_users b (<[user_id := rec]> (tracking_users b)))
  end.

(** [initial_price or int(current_price)]: [None] and [0] are falsy. *)
Definition or_int (initial_price : option Z) (current_price : Qc) : Z :=
  match initial_price with
  | Some v => if bool_decide (v = 0%Z) then py_int current_price else v
  | None => py_int current_price
  end.

(** [start_price_tracking(user_id, initial_price=None)]. *)
Definition start_price_tracking (fetched : option Qc) (user_id : Z)
    (initial_price : option Z) (b : Bot) : bool * Bot :=
  match tracking_users b !! user_id with
  | None =>
      match fetched with
      | None => (false, b)
      | Some current_price =>
          let rec := {| last_notification_price := or_int initial_price current_price;
                        tracking := true;
                        alerts := [] |} in
          (true, set_tracking_users b (<[user_id := rec]> (tracking_users b)))
      end
  | Some _ => (false, b)
  end.

(** [stop_price_tracking(user_id)]: the flag is cleared, then the key is
    deleted. *)
Definition stop_price_tracking (user_id : Z) (b : Bot) : bool * Bot :=
  match tracking_users b !! user_id with
  | Some ud =>
      let cleared := {| last_notification_price := last_notification_price ud;
                        tracking := false;
                        alerts := alerts ud |} in
      let r := <[user_id := cleared]> (tracking_users b) in
      (true, set_tracking_users b (delete user_id r))
  | None => (false, b)
  end.

(** ** The rolling price history *)

(** The two statements of the poll loop that update the history:
    [self.price_history.append(float(current_price))] and, when more than 24
    samples are held, [self.price_history.pop(0)]. *)
Definition append_price (h : list Qc) (current_price : Qc) : list Qc :=
  let h1 := h ++ [py_float current_price] in
  if bool_decide (24 < length h1) then drop 1 h1 else h1.

(** [get_price_trend()] on the history of the bot, the change being taken
    in exact arithmetic.  The change is a quotient by the oldest sample:
    Python raises [ZeroDivisionError] when that sample is zero.  What is
    stated on this version is when the call raises and in which direction
    the label goes; the labels at the thresholds, which depend on the
    rounding, are stated on [F64.get_price_trend]. *)
Definition get_price_trend (b : Bot) : result trend :=
  let h := price_history b in
  if bool_decide (length h < 2) then Ok InsufficientData
  else
    match last h, head h with
    | Some last_price, Some prev_price =>
        if bool_decide (prev_price = of_Z 0) then Raise ZeroDivisionError
        else
          let change := ((last_price - prev_price) / prev_price * of_Z 100)%Qc in
          if bool_decide (of_Z 5 < change)%Qc then Ok (StrongUpward change)
          else if bool_decide (of_Z 0 < change)%Qc then Ok (SlightUpward change)
          else if bool_decide (change < of_Z (-5))%Qc then Ok (StrongDownward change)
          else if bool_decide (change < of_Z 0)%Qc then Ok (SlightDownward change)
          else Ok StablePrice
    | _, _ => Raise IndexError
    end.

(** ** Target alerts *)

(** The [for alert in user_data['alerts']] loop of [check_price_alerts]:
    [messages] is the list built so far; the result is the final list and the
    alerts as the loop leaves them. *)
Fixpoint alerts_loop (current_price : Qc) (als : list Alert) (messages : list message)
    : list message * list Alert :=
  match als with
  | [] => (messages, [])
  | alert :: rest =>
      if negb (triggered alert) then
        if bool_decide (target alert ≤ current_price)%Qc then
          let r := alerts_loop current_price rest
                     (messages ++ [TargetMsg current_price (target alert)]) in
          (r.1, {| target := target alert; triggered := true |} :: r.2)
        else
          let r := alerts_loop current_price rest messages in
          (r.1, alert :: r.2)
      else
        let r := alerts_loop current_price rest messages in
        (r.1, alert :: r.2)
  end.

(** [check_price_alerts(user_id, current_price)]. *)
Definition check_price_alerts (user_id : Z) (current_price : Qc) (b : Bot)
    : list message * Bot :=
  match tracking_users b !! user_id with
  | None => ([], b)
  | Some user_data =>
      let r := alerts_loop current_price (alerts user_data) [] in
      let rec := {| last_notification_price := last_notification_price user_data;
                    tracking := tracking user_data;
                    alerts := r.2 |} in
      (r.1, set_tracking_users b (<[user_id := rec]> (tracking_users b)))
  end.

(** ** The poll loop *)

(** The chat transport behind [self.bot.send_message]: a call answers [true]
    when the text was delivered and [false] when it raised; the transport
    has a state of its own, so that two calls may differ. *)
Class Dispatcher := {
  transport : Type;
  send_message : transport -> Z -> message -> bool * transport
}.

(** One call of [send_message], as the loop observes it. *)
Record send_event := mkSend { recipient : Z; text : message; delivered : bool }.

Section PollLoop.
Context `{D : Dispatcher}.

(** The bot, the transport and the calls of [send_message] made so far. *)
Record World := mkWorld { bot : Bot; chat : transport; calls : list send_event }.

Definition set_bot (w : World) (b : Bot) : World :=
  {| bot := b; chat := chat w; calls := calls w |}.

(** [self.bot.send_message(user_id, msg)] inside a [try]: the answer tells
    whether the statements after the call in the [try] block are run. *)
Definition send (user_id : Z) (msg : message) (w : World) : bool * World :=
  let r := send_message (chat w) user_id msg in
  (r.1, {| bot := bot w; chat := r.2;
           calls := calls w ++ [mkSend user_id msg r.1] |}).

(** The threshold check of one user (the first [if] in the [for] loop):
    the price is stored only after a call that did not raise. *)
Definition check_increase (current_price : Qc) (user_id : Z)
    (user_data : UserData) (w : World) : World :=
  if bool_decide (last_notification_price user_data < py_int current_price)%Z then
    let r := send user_id (IncreaseMsg current_price) w in
    if r.1 then
      let rec := {| last_notification_price := py_int current_price;
                    tracking := tracking user_data;
                    alerts := alerts user_data |} in
      set_bot r.2 (set_tracking_users (bot r.2)
                     (<[user_id := rec]> (tracking_users (bot r.2))))
    else r.2
  else w.

(** [for msg in alert_messages]: every text is sent, a failure is logged. *)
Definition send_all (user_id : Z) (msgs : list message) (w : World) : World :=
  foldl (fun w msg => (send user_id msg w).2) w msgs.

(** The body of [for user_id, user_data in list(self.tracking_users.items())].
    [user_data] is the record that the registry holds for [user_id]; the
    loop neither adds nor deletes a key, so the record is there. *)
Definition notify_user (current_price : Qc) (user_id : Z) (w : World) : World :=
  match tracking_users (bot w) !! user_id with
  | None => w
  | Some user_data =>
      if tracking user_data then
        let w1 := check_increase current_price user_id user_data w in
        let r := check_price_alerts user_id current_price (bot w1) in
        send_all user_id r.1 (set_bot w1 r.2)
      else w
  end.

(** One iteration of the [while True] of [continuous_price_check], for the
    answer [fetched] of the price source (the sleep is not modelled).  The
    snapshot [list(self.tracking_users.items())] lists every key once, in
    the order of insertion; a [gmap] lists every key once in an order of its
    own, and what is proved of the loop holds for every list of distinct
    keys ([notify_users_effect]). *)
Definition poll_once (w : World) (fetched : option Qc) : World :=
  match fetched with
  | None => w
  | Some current_price =>
      let h := append_price (price_history (bot w)) current_price in
      let w1 := set_bot w (set_price_history (bot w) h) in
      foldl (fun w user_id => notify_user current_price user_id w) w1
            (map fst (map_to_list (tracking_users (bot w1))))
  end.

(** The loop over the successive answers of the price source. *)
Definition poll (fetches : list (option Qc)) (w : World) : World :=
  foldl poll_once w fetches.

End PollLoop.

(** ** Vocabulary of the statements *)

(** An alert is due at a price when it has not fired and its target is
    reached. *)
Definition due (current_price : Qc) (a : Alert) : bool :=
  negb (triggered a) && bool_decide (target a ≤ current_price)%Qc.

(** A due alert becomes a triggered one; the others are kept. *)
Definition mark (current_price : Qc) (a : Alert) : Alert :=
  if due current_price a then mkAlert (target a) true else a.

Definition target_msg (current_price : Qc) (a : Alert) : message :=
  TargetMsg current_price (target a).

Definition is_increase (m : message) : bool :=
  match m with
  | IncreaseMsg _ => true
  | TargetMsg _ _ => false
  end.

(** The calls of [send_message] that carry a threshold-increase text for
    one user. *)
Definition increases_to (user_id : Z) (evs : list send_event) : list send_event :=
  List.filter (fun e => bool_decide (recipient e = user_id) && is_increase (text e)) evs.

(** The successful answers among those of the price source, in order. *)
Definition samples (fetches : list (option Qc)) : list Qc := omap id fetches.

(** Two transports for the examples: one that delivers every text, one whose
    every call raises. *)
Definition delivering : Dispatcher :=
  {| transport := unit; send_message := fun c _ _ => (true, c) |}.

Definition failing : Dispatcher :=
  {| transport := unit; send_message := fun c _ _ => (false, c) |}.

(** A registry with the single user 7, the given last notified price and
    alerts. *)
Definition one_user (p : Z) (als : list Alert) : Bot :=
  {| tracking_users := {[ 7%Z := mkUserData p true als ]}; price_history := [] |}.

(** The calls of [send_message] for one user. *)
Definition calls_to (user_id : Z) (evs : list send_event) : list send_event :=
  List.filter (fun e => bool_decide (recipient e = user_id)) evs.

(** ** The command handlers *)

(** The texts of the replies, by the values that they print. *)
Inductive reply :=
| Welcome
| TrackingStarted
| CouldNotStart
| AlreadyTracking
| TrackError
| TrackingStopped
| NotTracking
| CurrentPrice (price : Qc)
| UnableToFetch
| Usage
| PositiveValue
| AlertSet (target_price : Qc)
| InvalidValue
| NoActiveAlerts
| AlertsText (lines : list (nat * Qc * bool))
| TrendText (t : trend).

(** [self.bot.reply_to(message, text)]: [true] when the reply was delivered,
    [false] when the call raised. *)
Class Chat := {
  channel : Type;
  reply_to : channel -> Z -> reply -> bool * channel
}.

(** One call of [reply_to], as a handler observes it. *)
Record reply_event := mkReply { chat_id : Z; body : reply; arrived : bool }.

(** A handler returns, or lets an exception out. *)
Inductive ending := Returned | Escaped.

Section Handlers.
Context `{C : Chat}.

(** The arguments of a command are the items of [message.text.split()];
    [float_of] is [float()] on such an item, [None] for [ValueError].  Its
    answers are finite numbers: the items that [float()] reads as NaN or as
    an infinity are not inputs of this model. *)
Context {token : Type} (float_of : token -> option Qc).

(** The bot, the chat and the calls of [reply_to] made so far. *)
Record Session := mkSession { sbot : Bot; schan : channel; replies : list reply_event }.

Definition set_sbot (s : Session) (b : Bot) : Session :=
  {| sbot := b; schan := schan s; replies := replies s |}.

Definition answer (user_id : Z) (r : reply) (s : Session) : bool * Session :=
  let a := reply_to (schan s) user_id r in
  (a.1, {| sbot := sbot s; schan := a.2;
           replies := replies s ++ [mkReply user_id r a.1] |}).

(** [/start]: the reply is in a [try] whose handler logs. *)
Definition send_welcome (user_id : Z) (s : Session) : ending * Session :=
  (Returned, (answer user_id Welcome s).2).

(** [/track].  [fetched1] answers the fetch of [start_price_tracking],
    [fetched2] the fetch that the handler makes when that call said [False].
    A reply that raises is caught by the [except] clause, which replies
    again, outside any [try]. *)
Definition track_except (user_id : Z) (a : bool * Session) : ending * Session :=
  if a.1 then (Returned, a.2)
  else
    let a2 := answer user_id TrackError a.2 in
    (if a2.1 then Returned else Escaped, a2.2).

Definition start_tracking (fetched1 fetched2 : option Qc) (user_id : Z)
    (s : Session) : ending * Session :=
  let r := start_price_tracking fetched1 user_id None (sbot s) in
  let s1 := set_sbot s r.2 in
  track_except user_id
    (if r.1 then answer user_id TrackingStarted s1
     else
       match fetched2 with
       | None => answer user_id CouldNotStart s1
       | Some _ => answer user_id AlreadyTracking s1
       end).

(** [/stop]: no [try]. *)
Definition stop_tracking (user_id : Z) (s : Session) : ending * Session :=
  let r := stop_price_tracking user_id (sbot s) in
  let s1 := set_sbot s r.2 in
  let a := if r.1 then answer user_id TrackingStopped s1
           else answer user_id NotTracking s1 in
  (if a.1 then Returned else Escaped, a.2).

(** [/price]: [if price:] is false for [None] and for a zero price; no
    [try]. *)
Definition current_price (fetched : option Qc) (user_id : Z) (s : Session)
    : ending * Session :=
  let a :=
    match fetched with
    | Some price =>
        if bool_decide (price = of_Z 0) then answer user_id UnableToFetch s
        else answer user_id (CurrentPrice price) s
    | None => answer user_id UnableToFetch s
    end in
  (if a.1 then Returned else Escaped, a.2).

(** [/setalert].  [ValueError] out of [float()] is answered; every other
    exception ([TypeError] out of [set_price_alert], a reply that raises,
    which is an error of the transport and no [ValueError]) is logged by the
    outer [except], which sends nothing. *)
Definition set_alert (args : list token) (fetched : option Qc) (user_id : Z)
    (s : Session) : ending * Session :=
  if bool_decide (length args <> 2) then (Returned, (answer user_id Usage s).2)
  else
    match args !! 1 with
    | None => (Returned, s)
    | Some arg =>
        match float_of arg with
        | None => (Returned, (answer user_id InvalidValue s).2)
        | Some target_price =>
            if bool_decide (target_price ≤ of_Z 0)%Qc then
              (Returned, (answer user_id PositiveValue s).2)
            else
              let r := set_price_alert fetched user_id target_price (sbot s) in
              match r.1 with
              | Raise _ => (Returned, set_sbot s r.2)
              | Ok _ =>
                  (Returned, (answer user_id (AlertSet target_price) (set_sbot s r.2)).2)
              end
        end
    end.

(** The lines of [/alerts]: [enumerate(alerts, 1)] with the target and the
    flag of each alert. *)
Definition alert_lines (als : list Alert) : list (nat * Qc * bool) :=
  imap (fun idx alert => (S idx, target alert, triggered alert)) als.

(** [/alerts]. *)
Definition list_alerts (user_id : Z) (s : Session) : ending * Session :=
  match tracking_users (sbot s) !! user_id with
  | None => (Returned, (answer user_id NoActiveAlerts s).2)
  | Some user_data =>
      match alerts user_data with
      | [] => (Returned, (answer user_id NoActiveAlerts s).2)
      | _ :: _ =>
          (Returned,
           (answer user_id (AlertsText (alert_lines (alerts user_data))) s).2)
      end
  end.


End Handlers.

(** What the poll loop keeps of a record: the tracking flag and the targets
    of the alerts, in their order. *)
Definition same_shape (ud ud' : UserData) : Prop :=
  tracking ud' = tracking ud /\ map target (alerts ud') = map target (alerts ud).

Definition keeps_shape (o o' : option UserData) : Prop :=
  match o, o' with
  | Some ud, Some ud' => same_shape ud ud'
  | None, None => True
  | _, _ => False
  end.

(** The texts of one iteration for a user: the threshold text if [int] of
    the price exceeds the last notified price, then the texts of the due
    alerts. *)
Definition tick_texts (x : Qc) (ud : UserData) : list message :=
  (if bool_decide (last_notification_price ud < py_int x)%Z
   then [IncreaseMsg x] else []) ++
  map (target_msg x) (List.filter (due x) (alerts ud)).

(** Two chats for the examples: one that delivers every reply, one whose
    every call raises; and a [float()] on integers as tokens, that rejects
    the negative ones. *)
Definition answering : Chat :=
  {| channel := unit; reply_to := fun c _ _ => (true, c) |}.

Definition unanswering : Chat :=
  {| channel := unit; reply_to := fun c _ _ => (false, c) |}.

Definition float_of_Z (t : Z) : option Qc :=
  if bool_decide (t < 0)%Z then None else Some (of_Z t).

(** The reply that [/track] first tries to send. *)
Definition track_reply (record : option UserData) (fetched1 fetched2 : option Qc)
    : reply :=
  match record, fetched1 with
  | None, Some _ => TrackingStarted
  | _, _ =>
      match fetched2 with
      | Some _ => AlreadyTracking
      | None => CouldNotStart
      end
  end.

(** ** The price source *)

From stdpp Require strings.

Module PriceSource.
Import stdpp.strings.

(** What [response.json()] gives: the Python value of a JSON text.  An
    object is a dict, given by its items (one per key). *)
#[warnings="-register-all"]
Inductive json :=
| JNull
| JBool (b : bool)
| JNum (q : Qc)
| JStr (s : string)
| JArr (items : list json)
| JObj (fields : list (string * json)).

(** The value of a key in the items of a dict. *)
Definition obj_get (k : string) (fields : list (string * json)) : option json :=
  snd <$> List.find (fun kv => bool_decide (kv.1 = k)) fields.

(** [needle in hay] on two strings: [needle] occurs in [hay]. *)
Fixpoint occurs_in (needle hay : string) : bool :=
  String.prefix needle hay ||
  match hay with
  | EmptyString => false
  | String _ rest => occurs_in needle rest
  end.

(** [k in v] for a string [k]: a key of a dict, an item of a list, a part
    of a string; [None] stands for the [TypeError] of the other values. *)
Definition py_in (k : string) (v : json) : option bool :=
  match v with
  | JObj fields => Some (bool_decide (is_Some (obj_get k fields)))
  | JArr items =>
      Some (existsb (fun x => match x with
                              | JStr s => bool_decide (s = k)
                              | _ => false
                              end) items)
  | JStr s => Some (occurs_in k s)
  | JNull | JBool _ | JNum _ => None
  end.

(** [v[k]] for a string [k]: the value of the key in a dict ([KeyError]
    when it has none); a list, a string and the other values raise
    [TypeError].  [None] stands for the exception. *)
Definition py_getitem (v : json) (k : string) : option json :=
  match v with
  | JObj fields => obj_get k fields
  | _ => None
  end.

(** What the HTTP request of [get_worldcoin_price] comes to: [requests.get]
    raises, or it gives a response, whose status is good or bad
    ([raise_for_status]) and whose body is JSON or not ([response.json()]
    raises). *)
Inductive http_outcome :=
| RequestFailed
| Response (status_ok : bool) (body : option json).

(** [get_worldcoin_price()]: every exception is caught and answered by
    [None], which is [JNull] here.  The operations of the bot take this
    answer as their [fetched]: [Some q] for a number [JNum q], [None] for
    [JNull]. *)
Definition get_worldcoin_price (o : http_outcome) : json :=
  match o with
  | RequestFailed => JNull
  | Response status_ok body =>
      if negb status_ok then JNull
      else
        match body with
        | None => JNull
        | Some data =>
            match py_in "world-coin" data with
            | None => JNull
            | Some false => JNull
            | Some true =>
                match py_getitem data "world-coin" with
                | None => JNull
                | Some coin =>
                    match py_in "usd" coin with
                    | None => JNull
                    | Some false => JNull
                    | Some true =>
                        match py_getitem coin "usd" with
                        | None => JNull
                        | Some price => price
                        end
                    end
                end
            end
        end
  end.

End PriceSource.

(** ** Trend and statistics in binary64 *)

(** [get_price_trend] and [get_price_stats] read one field of the bot, the
    list [self.price_history], whose items are Python floats (the poll loop
    appends [float(current_price)]).  They are embedded here as functions of
    that list over the primitive binary64 floats, whose operations are the
    IEEE 754 ones that Python's [float] uses: every sum, difference, product
    and quotient is rounded to nearest, ties to even, and a comparison with a
    NaN is false. *)

From Stdlib Require Floats.

Module F64.
Import Stdlib.Floats.Floats.
Local Set Warnings "-inexact-float".

(** [float(n)] for the length of a list; exact below [2^53]. *)
Definition of_nat (n : nat) : float := PrimFloat.of_uint63 (Uint63.of_Z (Z.of_nat n)).

(** The answers of [get_price_trend]: the label, and the change that the
    f-string of a directional label renders with two decimals. *)
Inductive trend :=
| InsufficientData
| StrongUpward (change : float)
| SlightUpward (change : float)
| StrongDownward (change : float)
| SlightDownward (change : float)
| StablePrice.

(** The answers of [get_price_stats]: the four values that the f-string
    renders with two decimals. *)
Inductive stats :=
| NoData
| Statistics (current high low avg : float).

(** [max(l)] and [min(l)] of a non-empty list: a scan from the left that
    replaces the candidate when [item > candidate] (resp. [item < candidate]),
    so that the first of the largest (smallest) items is kept. *)
Definition py_max (x : float) (l : list float) : float :=
  foldl (fun m y => if PrimFloat.ltb m y then y else m) x l.

Definition py_min (x : float) (l : list float) : float :=
  foldl (fun m y => if PrimFloat.ltb y m then y else m) x l.

(** [sum(l)]: the items are added from the left, starting from [0], each
    addition being rounded.  (CPython from version 3.12 on carries a
    compensation term through the loop; the embedding is the plain loop of
    the earlier versions.) *)
Definition py_sum (l : list float) : float := foldl PrimFloat.add (of_nat 0) l.

(** [get_price_trend()].  The quotient raises [ZeroDivisionError] when the
    oldest sample is a zero of either sign; a NaN or an infinite change goes
    through the comparisons as IEEE 754 has them. *)
Definition get_price_trend (price_history : list float) : result trend :=
  if bool_decide (length price_history < 2) then Ok InsufficientData
  else
    match last price_history, head price_history with
    | Some last_price, Some prev_price =>
        if PrimFloat.eqb prev_price 0 then Raise ZeroDivisionError
        else
          let change := ((last_price - prev_price) / prev_price * 100)%float in
          if PrimFloat.ltb 5 change then Ok (StrongUpward change)
          else if PrimFloat.ltb 0 change then Ok (SlightUpward change)
          else if PrimFloat.ltb change (-5) then Ok (StrongDownward change)
          else if PrimFloat.ltb change 0 then Ok (SlightDownward change)
          else Ok StablePrice
    | _, _ => Raise IndexError
    end.

(** [get_price_stats()]. *)
Definition get_price_stats (price_history : list float) : stats :=
  match price_history with
  | [] => NoData
  | x :: l =>
      let h := x :: l in
      let current := default x (last h) in
      let high := py_max x l in
      let low := py_min x l in
      let avg := (py_sum h / of_nat (length h))%float in
      Statistics current high low avg
  end.

(** A list without NaN. *)
Definition no_nan (l : list float) : Prop := Forall (fun x => PrimFloat.is_nan x = false) l.

(** The rational number that a finite binary64 value stands for. *)
Definition to_Q (x : float) : Q :=
  match Prim2SF x with
  | S754_finite s m e => (if s then -1 else 1) * inject_Z (Z.pos m) * Qpower 2 e
  | _ => 0
  end.

End F64.

(** * Properties *)

(** ** Numbers *)

Lemma Qc_nonneg_num (x : Qc) : (of_Z 0 ≤ x)%Qc -> (0 <= Qnum (this x))%Z.
Proof.
  unfold Qcle, Qle. simpl. lia.
Qed.

(** On a non-negative number [int()] is the floor. *)
Lemma py_int_floor (x : Qc) : (of_Z 0 ≤ x)%Qc -> py_int x = floor x.
Proof.
  intros Hx. apply Qc_nonneg_num in Hx.
  unfold py_int, floor, Qfloor. destruct (this x) as [n d]. simpl in *.
  apply Z.quot_div_nonneg; lia.
Qed.

(** Two numbers with different numerators are different. *)
Ltac Qc_neq :=
  let H := fresh in
  intros H; apply (f_equal (fun q => Qnum (this q))) in H; vm_compute in H;
  discriminate H.

(** On a negative number it is not: [int(-0.5)] is [0]. *)
Example py_int_negative : py_int (dec (-1) 2) = 0%Z /\ floor (dec (-1) 2) = (-1)%Z.
Proof. split; reflexivity. Qed.

(** ** The registry *)

Lemma set_tracking_users_id (b : Bot) : set_tracking_users b (tracking_users b) = b.
Proof. destruct b; reflexivity. Qed.

Lemma start_price_tracking_present fetched user_id initial_price b :
  is_Some (tracking_users b !! user_id) ->
  start_price_tracking fetched user_id initial_price b = (false, b).
Proof.
  intros [ud Hud]. unfold start_price_tracking. rewrite Hud. reflexivity.
Qed.

Lemma start_price_tracking_fetch_failed user_id initial_price b :
  start_price_tracking None user_id initial_price b = (false, b).
Proof.
  unfold start_price_tracking. destruct (tracking_users b !! user_id); reflexivity.
Qed.

Lemma start_price_tracking_created p user_id b :
  tracking_users b !! user_id = None ->
  start_price_tracking (Some p) user_id None b =
    (true, set_tracking_users b
             (<[user_id := mkUserData (py_int p) true []]> (tracking_users b))).
Proof.
  intros Hnone. unfold start_price_tracking. rewrite Hnone. reflexivity.
Qed.

(** C5: [start_price_tracking(user_id)] answers [False] and changes nothing
    when the user is known; for an unknown user it answers [False] and
    changes nothing when the fetch fails, and when the fetch gives [p] it
    answers [True] and stores the record with [tracking = True], no alert and
    [last_notification_price = int(p)], which is the floor of [p] for every
    non-negative price; the other users and the history are kept. *)
Theorem start_price_tracking_spec (user_id : Z) (b : Bot) :
  (forall fetched, is_Some (tracking_users b !! user_id) ->
     start_price_tracking fetched user_id None b = (false, b)) /\
  (tracking_users b !! user_id = None ->
     start_price_tracking None user_id None b = (false, b)) /\
  (forall p, tracking_users b !! user_id = None ->
     exists b',
       start_price_tracking (Some p) user_id None b = (true, b') /\
       tracking_users b' !! user_id = Some (mkUserData (py_int p) true []) /\
       ((of_Z 0 ≤ p)%Qc -> py_int p = floor p) /\
       (forall v, v <> user_id -> tracking_users b' !! v = tracking_users b !! v) /\
       price_history b' = price_history b).
Proof.
  split; [| split].
  - intros fetched Hsome. by apply start_price_tracking_present.
  - intros _. apply start_price_tracking_fetch_failed.
  - intros p Hnone. eexists. split; [by apply start_price_tracking_created |].
    simpl. split; [apply lookup_insert_eq |]. split; [apply py_int_floor |].
    split; [| reflexivity].
    intros v Hv. by apply lookup_insert_ne.
Qed.

Lemma start_price_tracking_spec_witness :
  exists b',
    start_price_tracking (Some (dec 23 2)) 7 None init = (true, b') /\
    tracking_users b' !! 7%Z = Some (mkUserData 11 true []) /\
    floor (dec 23 2) = 11%Z.
Proof.
  destruct (proj2 (proj2 (start_price_tracking_spec 7 init)) (dec 23 2))
    as (b' & Hrun & Hrec & Hfloor & _); [reflexivity |].
  exists b'. split; [exact Hrun |]. split; [exact Hrec |].
  symmetry. apply Hfloor. unfold Qcle, Qle. simpl. lia.
Defined.

(** C8: [stop_price_tracking(user_id)] answers [True] and deletes the whole
    record of a known user (its alerts with it), the other users being kept;
    for an unknown user it answers [False] and the bot is unchanged. *)
Theorem stop_price_tracking_spec (user_id : Z) (b : Bot) :
  (forall ud, tracking_users b !! user_id = Some ud ->
     exists b',
       stop_price_tracking user_id b = (true, b') /\
       tracking_users b' = delete user_id (tracking_users b) /\
       tracking_users b' !! user_id = None /\
       (forall v, v <> user_id -> tracking_users b' !! v = tracking_users b !! v) /\
       price_history b' = price_history b) /\
  (tracking_users b !! user_id = None ->
     stop_price_tracking user_id b = (false, b)).
Proof.
  split.
  - intros ud Hud. unfold stop_price_tracking. rewrite Hud.
    eexists. split; [reflexivity |]. simpl. rewrite delete_insert_eq.
    split; [reflexivity |]. split; [apply lookup_delete_eq |].
    split; [| reflexivity].
    intros v Hv. by apply lookup_delete_ne.
  - intros Hnone. unfold stop_price_tracking. rewrite Hnone. reflexivity.
Qed.

Lemma stop_price_tracking_spec_witness :
  stop_price_tracking 7 init = (false, init) /\
  exists b',
    stop_price_tracking 7 (start_price_tracking (Some (dec 23 2)) 7 None init).2
      = (true, b') /\
    tracking_users b' !! 7%Z = None.
Proof.
  split.
  - apply (proj2 (stop_price_tracking_spec 7 init)). reflexivity.
  - destruct (proj1 (stop_price_tracking_spec 7
        (start_price_tracking (Some (dec 23 2)) 7 None init).2)
        (mkUserData 11 true [])) as (b' & Hrun & _ & Hgone & _); [reflexivity |].
    exists b'. split; [exact Hrun | exact Hgone].
Defined.

(** When the fetch succeeds, [set_price_alert] for an unknown user stores the
    record that [start_price_tracking] creates, with the new alert in it. *)
Lemma set_price_alert_creates_like_start p user_id target_price b :
  tracking_users b !! user_id = None ->
  exists b1 ud,
    start_price_tracking (Some p) user_id None b = (true, b1) /\
    tracking_users b1 !! user_id = Some ud /\
    set_price_alert (Some p) user_id target_price b =
      (Ok tt, set_tracking_users b
                (<[user_id := mkUserData (last_notification_price ud) (tracking ud)
                                (alerts ud ++ [mkAlert target_price false])]>
                   (tracking_users b))).
Proof.
  intros Hnone. rewrite start_price_tracking_created by done.
  eexists _, _. split; [reflexivity |]. simpl.
  split; [apply lookup_insert_eq |].
  unfold set_price_alert. rewrite Hnone. reflexivity.
Qed.

(** For a known user the new alert goes to the end of the list, not yet
    triggered, and no price is fetched. *)
Lemma set_price_alert_known fetched user_id target_price b ud :
  tracking_users b !! user_id = Some ud ->
  set_price_alert fetched user_id target_price b =
    (Ok tt, set_tracking_users b
              (<[user_id := mkUserData (last_notification_price ud) (tracking ud)
                              (alerts ud ++ [mkAlert target_price false])]>
                 (tracking_users b))).
Proof.
  intros Hud. unfold set_price_alert. rewrite Hud. reflexivity.
Qed.

(** When the fetch fails, [set_price_alert] for an unknown user raises
    [TypeError], where [start_price_tracking] answers [False]: neither
    stores a record. *)
Lemma set_price_alert_fetch_failed user_id target_price b :
  tracking_users b !! user_id = None ->
  set_price_alert None user_id target_price b = (Raise TypeError, b) /\
  start_price_tracking None user_id None b = (false, b).
Proof.
  intros Hnone. unfold set_price_alert, start_price_tracking.
  rewrite Hnone. split; reflexivity.
Qed.

(** C1: for the unknown user 7 and a failing price source,
    [set_price_alert(7, 50.0)] raises [TypeError] out of [int(None)], while
    [start_price_tracking(7)] answers [False]; no record is stored and no
    alert is appended. *)
Theorem set_price_alert_raises_on_failed_fetch :
  set_price_alert None 7 (of_Z 50) init = (Raise TypeError, init) /\
  start_price_tracking None 7 None init = (false, init).
Proof. split; reflexivity. Qed.

(** ** Target alerts *)

Lemma alerts_loop_spec x als msgs :
  alerts_loop x als msgs =
    (msgs ++ map (target_msg x) (List.filter (due x) als), map (mark x) als).
Proof.
  revert msgs. induction als as [| a rest IH]; intros msgs; simpl.
  - by rewrite app_nil_r.
  - unfold mark, due.
    destruct (triggered a); simpl; [by rewrite IH |].
    destruct (bool_decide (target a ≤ x)%Qc); rewrite IH; simpl; [| done].
    by rewrite <- app_assoc.
Qed.

Lemma target_mark x a : target (mark x a) = target a.
Proof. unfold mark. by destruct (due x a). Qed.

Lemma triggered_mark x a :
  triggered (mark x a) = triggered a || bool_decide (target a ≤ x)%Qc.
Proof.
  unfold mark, due. destruct (triggered a) eqn:Ht; simpl; [done |].
  by destruct (bool_decide (target a ≤ x)%Qc).
Qed.

(** Once marked at [x], an alert is due at [y] only if it was neither
    triggered nor reached at [x]. *)
Lemma due_mark x y a :
  due y (mark x a) = negb (due x a) && due y a.
Proof.
  unfold due at 1. rewrite triggered_mark, target_mark. unfold due.
  destruct (triggered a); simpl; [done |].
  by destruct (bool_decide (target a ≤ x)%Qc).
Qed.

Lemma due_mark_same x a : due x (mark x a) = false.
Proof. rewrite due_mark. by destruct (due x a). Qed.

Lemma filter_due_mark x y als :
  map (target_msg y) (List.filter (due y) (map (mark x) als)) =
  map (target_msg y) (List.filter (fun a => negb (due x a) && due y a) als).
Proof.
  induction als as [| a rest IH]; simpl; [done |].
  rewrite due_mark. destruct (negb (due x a) && due y a); simpl; [| done].
  rewrite IH. unfold target_msg at 1 3. by rewrite target_mark.
Qed.

Lemma filter_due_mark_same x als :
  List.filter (due x) (map (mark x) als) = [].
Proof.
  induction als as [| a rest IH]; simpl; [done |].
  by rewrite due_mark_same.
Qed.

Lemma mark_idem x a : mark x (mark x a) = mark x a.
Proof. unfold mark at 1. by rewrite due_mark_same. Qed.

Lemma check_price_alerts_known user_id x b ud :
  tracking_users b !! user_id = Some ud ->
  check_price_alerts user_id x b =
    (map (target_msg x) (List.filter (due x) (alerts ud)),
     set_tracking_users b
       (<[user_id := mkUserData (last_notification_price ud) (tracking ud)
                       (map (mark x) (alerts ud))]> (tracking_users b))).
Proof.
  intros Hud. unfold check_price_alerts. rewrite Hud, alerts_loop_spec. reflexivity.
Qed.

Lemma check_price_alerts_unknown user_id x b :
  tracking_users b !! user_id = None ->
  check_price_alerts user_id x b = ([], b).
Proof.
  intros Hnone. unfold check_price_alerts. by rewrite Hnone.
Qed.

(** C4: for a known user, [check_price_alerts(user_id, x)] answers one
    target-reached text per alert that is not yet triggered and whose target
    is at most [x], in the order of the alert list, and marks exactly those
    alerts; no flag goes back to [False] and no target changes; the same call
    again answers nothing and changes nothing; and at any later price [y] the
    texts are those of the alerts that were not due at [x] and are reached at
    [y], so that an alert that has fired does not fire again. *)
Theorem check_price_alerts_fires_once (user_id : Z) (x : Qc) (b : Bot) (ud : UserData) :
  tracking_users b !! user_id = Some ud ->
  let r := check_price_alerts user_id x b in
  r.1 = map (target_msg x) (List.filter (due x) (alerts ud)) /\
  tracking_users r.2 !! user_id =
    Some (mkUserData (last_notification_price ud) (tracking ud)
            (map (mark x) (alerts ud))) /\
  (forall a, target (mark x a) = target a /\
             triggered (mark x a) = triggered a || bool_decide (target a ≤ x)%Qc) /\
  check_price_alerts user_id x r.2 = ([], r.2) /\
  (forall y, (check_price_alerts user_id y r.2).1 =
     map (target_msg y)
       (List.filter (fun a => negb (due x a) && due y a) (alerts ud))).
Proof.
  intros Hud r. subst r. rewrite (check_price_alerts_known _ _ _ _ Hud). simpl.
  split; [done |]. split; [apply lookup_insert_eq |].
  split; [intros a; split; [apply target_mark | apply triggered_mark] |].
  split.
  - erewrite check_price_alerts_known by apply lookup_insert_eq. simpl.
    rewrite filter_due_mark_same. simpl. f_equal. unfold set_tracking_users. simpl.
    f_equal. rewrite insert_insert_eq. f_equal. f_equal.
    rewrite <- list_fmap_compose. apply list_fmap_ext. intros ? a _. apply mark_idem.
  - intros y. erewrite check_price_alerts_known by apply lookup_insert_eq. simpl.
    apply filter_due_mark.
Qed.

Lemma check_price_alerts_fires_once_witness :
  (check_price_alerts 7 (of_Z 49) (one_user 40 [mkAlert (of_Z 50) false])).1 = [] /\
  (check_price_alerts 7 (of_Z 50) (one_user 40 [mkAlert (of_Z 50) false])).1 =
    [TargetMsg (of_Z 50) (of_Z 50)] /\
  (check_price_alerts 7 (of_Z 50)
     (check_price_alerts 7 (of_Z 50) (one_user 40 [mkAlert (of_Z 50) false])).2).1 = [].
Proof.
  pose proof (check_price_alerts_fires_once 7 (of_Z 49)
                (one_user 40 [mkAlert (of_Z 50) false])
                (mkUserData 40 true [mkAlert (of_Z 50) false]) eq_refl) as H49.
  pose proof (check_price_alerts_fires_once 7 (of_Z 50)
                (one_user 40 [mkAlert (of_Z 50) false])
                (mkUserData 40 true [mkAlert (of_Z 50) false]) eq_refl) as H50.
  simpl in H49, H50.
  destruct H49 as (H49 & _). destruct H50 as (H50 & _ & _ & Hagain & _).
  split; [rewrite H49; reflexivity |].
  split; [rewrite H50; reflexivity |].
  rewrite Hagain. reflexivity.
Defined.

(** C9: for a user without a record, [check_price_alerts] answers the empty
    list and leaves the bot as it is. *)
Theorem check_price_alerts_unknown_user (user_id : Z) (x : Qc) (b : Bot) :
  tracking_users b !! user_id = None ->
  check_price_alerts user_id x b = ([], b).
Proof. apply check_price_alerts_unknown. Qed.

Lemma check_price_alerts_unknown_user_witness :
  check_price_alerts 8 (of_Z 50) (one_user 40 [mkAlert (of_Z 50) false]) =
    ([], one_user 40 [mkAlert (of_Z 50) false]).
Proof. apply check_price_alerts_unknown_user. reflexivity. Defined.

(** C10: [check_price_alerts(user_id, x)] keeps the history and every other
    user's record; it creates no record; and in the record of [user_id] it
    keeps the tracking flag, the last notified price, and the length, the
    order and the targets of the alerts, a flag changing from [False] to
    [True] only. *)
Theorem check_price_alerts_frame (user_id : Z) (x : Qc) (b : Bot) :
  let b' := (check_price_alerts user_id x b).2 in
  price_history b' = price_history b /\
  (forall v, v <> user_id -> tracking_users b' !! v = tracking_users b !! v) /\
  (tracking_users b !! user_id = None -> tracking_users b' !! user_id = None) /\
  (forall ud, tracking_users b !! user_id = Some ud ->
     exists ud',
       tracking_users b' !! user_id = Some ud' /\
       tracking ud' = tracking ud /\
       last_notification_price ud' = last_notification_price ud /\
       length (alerts ud') = length (alerts ud) /\
       map target (alerts ud') = map target (alerts ud) /\
       Forall2 (fun a a' => triggered a = true -> triggered a' = true)
               (alerts ud) (alerts ud')).
Proof.
  intros b'. subst b'.
  destruct (tracking_users b !! user_id) as [ud |] eqn:Hud.
  - rewrite (check_price_alerts_known _ _ _ _ Hud). simpl.
    split; [done |]. split; [intros v Hv; by apply lookup_insert_ne |].
    split; [done |].
    intros ud0 [= <-]. eexists. split; [apply lookup_insert_eq |]. simpl.
    split; [done |]. split; [done |]. split; [apply length_map |].
    split.
    + rewrite <- list_fmap_compose. apply list_fmap_ext. intros ? a _. apply target_mark.
    + apply Forall2_fmap_r, Forall_Forall2_diag, Forall_forall.
      intros a _ Ha. rewrite triggered_mark, Ha. done.
  - rewrite (check_price_alerts_unknown _ _ _ Hud). simpl.
    split; [done |]. split; [done |]. split; [done |]. intros ud0 [=].
Qed.

Lemma check_price_alerts_frame_witness :
  exists ud',
    tracking_users
      (check_price_alerts 7 (of_Z 50) (one_user 40 [mkAlert (of_Z 50) false])).2
      !! 7%Z = Some ud' /\
    last_notification_price ud' = 40%Z /\
    map target (alerts ud') = [of_Z 50].
Proof.
  destruct (proj2 (proj2 (proj2
              (check_price_alerts_frame 7 (of_Z 50)
                 (one_user 40 [mkAlert (of_Z 50) false]))))
              (mkUserData 40 true [mkAlert (of_Z 50) false]) eq_refl)
    as (ud' & Hlk & _ & Hlnp & _ & Htargets & _).
  exists ud'. split; [exact Hlk |]. split; [exact Hlnp | exact Htargets].
Defined.

(** ** The sends of the poll loop leave the history alone *)

Section PollFrame.
Context `{D : Dispatcher}.

Lemma bot_send user_id msg w : bot (send user_id msg w).2 = bot w.
Proof. reflexivity. Qed.

Lemma bot_send_all user_id msgs w : bot (send_all user_id msgs w) = bot w.
Proof.
  unfold send_all. revert w.
  induction msgs as [| m msgs IH]; intros w; cbn [foldl]; [done |].
  by rewrite IH.
Qed.

Lemma history_check_increase x user_id ud w :
  price_history (bot (check_increase x user_id ud w)) = price_history (bot w).
Proof.
  unfold check_increase. case_bool_decide; [| done].
  by destruct (send user_id (IncreaseMsg x) w).1.
Qed.

Lemma history_check_price_alerts user_id x b :
  price_history (check_price_alerts user_id x b).2 = price_history b.
Proof.
  unfold check_price_alerts. by destruct (tracking_users b !! user_id).
Qed.

Lemma history_notify_user x user_id w :
  price_history (bot (notify_user x user_id w)) = price_history (bot w).
Proof.
  unfold notify_user.
  destruct (tracking_users (bot w) !! user_id) as [ud |]; [| done].
  destruct (tracking ud); [| done].
  rewrite bot_send_all. simpl.
  by rewrite history_check_price_alerts, history_check_increase.
Qed.

Lemma history_notify_users x ids w :
  price_history (bot (foldl (fun w user_id => notify_user x user_id w) w ids)) =
  price_history (bot w).
Proof.
  revert w. induction ids as [| i ids IH]; intros w; simpl; [done |].
  by rewrite IH, history_notify_user.
Qed.

Lemma history_poll_once w fetched :
  price_history (bot (poll_once w fetched)) =
    match fetched with
    | Some x => append_price (price_history (bot w)) x
    | None => price_history (bot w)
    end.
Proof.
  destruct fetched as [x |]; simpl; [| done].
  by rewrite history_notify_users.
Qed.

Lemma history_poll fetches w :
  price_history (bot (poll fetches w)) =
    foldl append_price (price_history (bot w)) (samples fetches).
Proof.
  revert w. induction fetches as [| f fetches IH]; intros w; simpl; [done |].
  unfold poll in *. simpl. rewrite IH, history_poll_once.
  by destruct f.
Qed.

End PollFrame.

(** ** The rolling window *)

Lemma append_price_drop h x :
  length h <= 24 ->
  append_price h x = drop (length h + 1 - 24) (h ++ [x]).
Proof.
  intros Hlen. unfold append_price, py_float.
  rewrite length_app. simpl. case_bool_decide.
  - by replace (length h + 1 - 24) with 1 by lia.
  - by replace (length h + 1 - 24) with 0 by lia.
Qed.

Lemma append_price_length h x :
  length h <= 24 -> length (append_price h x) <= 24.
Proof.
  intros Hlen. rewrite append_price_drop by done.
  rewrite length_drop, length_app. simpl. lia.
Qed.

(** After any number of appends the history is the last 24 items of what
    was held and appended. *)
Lemma foldl_append_price h xs :
  length h <= 24 ->
  foldl append_price h xs = drop (length (h ++ xs) - 24) (h ++ xs).
Proof.
  revert h. induction xs as [| x xs IH]; intros h Hlen; simpl.
  - rewrite app_nil_r. by replace (length h - 24) with 0 by lia.
  - rewrite IH by by apply append_price_length.
    rewrite append_price_drop by done.
    rewrite length_app, length_drop, !length_app. simpl.
    rewrite (cons_middle x h xs), app_assoc.
    rewrite <- drop_app_le by (rewrite length_app; simpl; lia).
    rewrite drop_drop. f_equal. lia.
Qed.

(** C2: whatever the answers of the price source, starting from the empty
    history of [__init__], the history after the poll loop has handled them
    is the list of the successful samples without its first [n - 24] items,
    [n] being their number: the last [min n 24] samples in the order of their
    arrival, at most 24 of them; and one more sample on a full history drops
    the oldest item. *)
Theorem price_history_window `{D : Dispatcher} (fetches : list (option Qc))
    (reg : gmap Z UserData) (c : transport) (evs : list send_event) :
  let h := price_history (bot (poll fetches (mkWorld (mkBot reg []) c evs))) in
  let n := length (samples fetches) in
  h = drop (n - 24) (samples fetches) /\
  length h = Nat.min n 24 /\
  length h <= 24 /\
  (forall w x, length (price_history (bot w)) = 24 ->
     price_history (bot (poll_once w (Some x))) = drop 1 (price_history (bot w)) ++ [x]).
Proof.
  intros h n. subst h n. rewrite history_poll. cbn [bot price_history].
  rewrite foldl_append_price by (simpl; lia). rewrite app_nil_l.
  split; [done |]. rewrite length_drop.
  split; [lia |]. split; [lia |].
  intros w x Hfull. rewrite history_poll_once.
  rewrite append_price_drop by lia.
  rewrite Hfull. simpl. rewrite drop_app_le by lia. done.
Qed.

Lemma price_history_window_witness :
  price_history
    (bot (@poll delivering [Some (of_Z 1); None; Some (of_Z 2)]
            (@mkWorld delivering (mkBot ∅ []) tt []))) = [of_Z 1; of_Z 2] /\
  price_history
    (bot (@poll_once delivering
            (@mkWorld delivering (mkBot ∅ (replicate 24 (of_Z 1))) tt [])
            (Some (of_Z 2)))) = replicate 23 (of_Z 1) ++ [of_Z 2].
Proof.
  split.
  - apply (proj1 (@price_history_window delivering
                    [Some (of_Z 1); None; Some (of_Z 2)] ∅ tt [])).
  - apply (proj2 (proj2 (proj2 (@price_history_window delivering [] ∅ tt [])))
             (@mkWorld delivering (mkBot ∅ (replicate 24 (of_Z 1))) tt [])
             (of_Z 2)).
    reflexivity.
Defined.

(** ** Trend *)

Lemma history_ends (oldest newest : Qc) (mid : list Qc) :
  let h := oldest :: mid ++ [newest] in
  bool_decide (length h < 2) = false /\ last h = Some newest /\ head h = Some oldest.
Proof.
  simpl. split; [| split; [| done]].
  - apply bool_decide_eq_false. rewrite length_app. simpl. lia.
  - by rewrite (app_comm_cons mid [newest] oldest), last_snoc.
Qed.

Lemma Qclt_asym (x y : Qc) : (x < y)%Qc -> ~ (y < x)%Qc.
Proof. intros Hxy Hyx. apply (Qclt_not_le _ _ Hxy). by apply Qclt_le_weak. Qed.

(** The branches of [get_price_trend], for a history with two ends and a
    non-zero oldest sample. *)
Lemma get_price_trend_branches b oldest mid newest :
  price_history b = oldest :: mid ++ [newest] ->
  oldest <> of_Z 0 ->
  let change := ((newest - oldest) / oldest * of_Z 100)%Qc in
  get_price_trend b =
    if bool_decide (of_Z 5 < change)%Qc then Ok (StrongUpward change)
    else if bool_decide (of_Z 0 < change)%Qc then Ok (SlightUpward change)
    else if bool_decide (change < of_Z (-5))%Qc then Ok (StrongDownward change)
    else if bool_decide (change < of_Z 0)%Qc then Ok (SlightDownward change)
    else Ok StablePrice.
Proof.
  intros Hh Hnz change. unfold get_price_trend. rewrite Hh.
  destruct (history_ends oldest newest mid) as (Hlen & Hlast & Hhead).
  cbv zeta in Hlen, Hlast, Hhead. rewrite Hlen, Hlast, Hhead.
  by rewrite bool_decide_eq_false_2.
Qed.

(** With a zero oldest sample the quotient raises. *)
Lemma get_price_trend_zero_oldest b mid newest :
  price_history b = of_Z 0 :: mid ++ [newest] ->
  get_price_trend b = Raise ZeroDivisionError.
Proof.
  intros Hh. unfold get_price_trend. rewrite Hh.
  destruct (history_ends (of_Z 0) newest mid) as (Hlen & Hlast & Hhead).
  cbv zeta in Hlen, Hlast, Hhead. rewrite Hlen, Hlast, Hhead.
  by rewrite bool_decide_eq_true_2.
Qed.

(** ** Trend and statistics in binary64 *)

Module F64Facts.
Import Stdlib.Floats.Floats.
Import F64.
Local Set Warnings "-inexact-float".

(** *** The order of binary64 values *)

(** The comparisons of the primitive floats are those of their
    specification ([SFltb], [SFleb], [SFeqb]), which are decided by cases on
    the sign, the exponent and the mantissa. *)

Ltac cmp_cases :=
  change (Pos.compare_cont Eq ?a ?b) with (Pos.compare a b);
  repeat match goal with
  | |- context [Z.compare ?a ?b] => destruct (Z.compare_spec a b)
  | |- context [Pos.compare ?a ?b] => destruct (Pos.compare_spec a b)
  end; simpl; intros; subst; try discriminate; try reflexivity; try lia.

Ltac by_cases x y z :=
  destruct x as [[] | [] | | [] ? ?], y as [[] | [] | | [] ? ?],
    z as [[] | [] | | [] ? ?];
  simpl; try discriminate; try reflexivity; cmp_cases.

(** Without NaN the order is total and transitive; a NaN compares false
    with everything, itself included. *)
Lemma SFleb_trans x y z :
  SFleb x y = true -> SFleb y z = true -> SFleb x z = true.
Proof. unfold SFleb. by_cases x y z. Qed.

Lemma SFltb_trans x y z :
  SFltb x y = true -> SFltb y z = true -> SFltb x z = true.
Proof. unfold SFltb. by_cases x y z. Qed.

Lemma SFltb_leb x y : SFltb x y = true -> SFleb x y = true.
Proof. unfold SFltb, SFleb. by destruct (SFcompare x y) as [[] |]. Qed.

Lemma SFleb_not_ltb x y : SFleb x y = true -> SFltb y x = false.
Proof.
  unfold SFltb, SFleb.
  destruct x as [[] | [] | | [] ? ?], y as [[] | [] | | [] ? ?];
    simpl; try discriminate; try reflexivity; cmp_cases.
Qed.

Lemma SFnot_ltb_leb x y :
  SFeqb x x = true -> SFeqb y y = true -> SFltb x y = false -> SFleb y x = true.
Proof.
  unfold SFltb, SFleb, SFeqb.
  destruct x as [[] | [] | | [] ? ?], y as [[] | [] | | [] ? ?];
    simpl; try discriminate; try reflexivity; cmp_cases.
Qed.

Lemma SFeqb_ltb_l x y z : SFeqb x y = true -> SFltb x z = SFltb y z.
Proof. unfold SFltb, SFeqb. by_cases x y z. Qed.

Lemma SFeqb_ltb_r x y z : SFeqb x y = true -> SFltb z x = SFltb z y.
Proof. unfold SFltb, SFeqb. by_cases x y z. Qed.

Lemma leb_trans x y z :
  (x <=? y)%float = true -> (y <=? z)%float = true -> (x <=? z)%float = true.
Proof. rewrite !leb_spec. apply SFleb_trans. Qed.

Lemma ltb_trans x y z :
  (x <? y)%float = true -> (y <? z)%float = true -> (x <? z)%float = true.
Proof. rewrite !ltb_spec. apply SFltb_trans. Qed.

Lemma ltb_leb x y : (x <? y)%float = true -> (x <=? y)%float = true.
Proof. rewrite ltb_spec, leb_spec. apply SFltb_leb. Qed.

Lemma leb_not_ltb x y : (x <=? y)%float = true -> (y <? x)%float = false.
Proof. rewrite ltb_spec, leb_spec. apply SFleb_not_ltb. Qed.

Lemma ltb_asym x y : (x <? y)%float = true -> (y <? x)%float = false.
Proof. intros H. by apply leb_not_ltb, ltb_leb. Qed.

Lemma is_nan_eqb x : PrimFloat.is_nan x = false <-> (x =? x)%float = true.
Proof. unfold PrimFloat.is_nan. by destruct (x =? x)%float. Qed.

Lemma not_ltb_leb x y :
  PrimFloat.is_nan x = false -> PrimFloat.is_nan y = false ->
  (x <? y)%float = false -> (y <=? x)%float = true.
Proof.
  rewrite !is_nan_eqb, !eqb_spec, ltb_spec, leb_spec. apply SFnot_ltb_leb.
Qed.

Lemma leb_refl x : PrimFloat.is_nan x = false -> (x <=? x)%float = true.
Proof.
  rewrite is_nan_eqb, eqb_spec, leb_spec. unfold SFeqb, SFleb.
  by destruct (SFcompare (Prim2SF x) (Prim2SF x)) as [[] |].
Qed.

Lemma eqb_ltb_l x y z : (x =? y)%float = true -> (x <? z)%float = (y <? z)%float.
Proof. rewrite eqb_spec, !ltb_spec. apply SFeqb_ltb_l. Qed.

Lemma eqb_ltb_r x y z : (x =? y)%float = true -> (z <? x)%float = (z <? y)%float.
Proof. rewrite eqb_spec, !ltb_spec. apply SFeqb_ltb_r. Qed.

(** *** Maximum and minimum *)

(** On a list without NaN, [max] and [min] answer an item of the list that
    bounds every item. *)

Lemma py_max_spec l x :
  no_nan (x :: l) ->
  py_max x l ∈ x :: l /\ (forall y, y ∈ x :: l -> (y <=? py_max x l)%float = true).
Proof.
  unfold py_max, no_nan. revert x. induction l as [| z l IH]; intros x Hnn; cbn [foldl].
  - apply Forall_cons in Hnn as [Hx _].
    split; [apply list_elem_of_here |].
    intros y ->%list_elem_of_singleton. by apply leb_refl.
  - apply Forall_cons in Hnn as [Hx Hnn]. apply Forall_cons in Hnn as [Hz Hnn].
    destruct (IH (if (x <? z)%float then z else x)) as [Hin Hub];
      [apply Forall_cons; split; [by destruct (x <? z)%float | exact Hnn] |].
    assert (Hxm : (x <=? (if (x <? z)%float then z else x))%float = true)
      by (destruct (x <? z)%float eqn:E; [by apply ltb_leb | by apply leb_refl]).
    assert (Hzm : (z <=? (if (x <? z)%float then z else x))%float = true)
      by (destruct (x <? z)%float eqn:E; [by apply leb_refl | by apply not_ltb_leb]).
    split.
    + destruct (x <? z)%float; [by apply list_elem_of_further |].
      apply elem_of_cons in Hin as [-> | Hin];
        [apply list_elem_of_here | by do 2 apply list_elem_of_further].
    + intros y Hy.
      apply elem_of_cons in Hy as [-> | Hy];
        [eapply leb_trans; [exact Hxm | apply Hub, list_elem_of_here] |].
      apply elem_of_cons in Hy as [-> | Hy];
        [eapply leb_trans; [exact Hzm | apply Hub, list_elem_of_here] |].
      by apply Hub, list_elem_of_further.
Qed.

Lemma py_min_spec l x :
  no_nan (x :: l) ->
  py_min x l ∈ x :: l /\ (forall y, y ∈ x :: l -> (py_min x l <=? y)%float = true).
Proof.
  unfold py_min, no_nan. revert x. induction l as [| z l IH]; intros x Hnn; cbn [foldl].
  - apply Forall_cons in Hnn as [Hx _].
    split; [apply list_elem_of_here |].
    intros y ->%list_elem_of_singleton. by apply leb_refl.
  - apply Forall_cons in Hnn as [Hx Hnn]. apply Forall_cons in Hnn as [Hz Hnn].
    destruct (IH (if (z <? x)%float then z else x)) as [Hin Hlb];
      [apply Forall_cons; split; [by destruct (z <? x)%float | exact Hnn] |].
    assert (Hmx : ((if (z <? x)%float then z else x) <=? x)%float = true)
      by (destruct (z <? x)%float eqn:E; [by apply ltb_leb | by apply leb_refl]).
    assert (Hmz : ((if (z <? x)%float then z else x) <=? z)%float = true)
      by (destruct (z <? x)%float eqn:E; [by apply leb_refl | by apply not_ltb_leb]).
    split.
    + destruct (z <? x)%float; [by apply list_elem_of_further |].
      apply elem_of_cons in Hin as [-> | Hin];
        [apply list_elem_of_here | by do 2 apply list_elem_of_further].
    + intros y Hy.
      apply elem_of_cons in Hy as [-> | Hy];
        [eapply leb_trans; [apply Hlb, list_elem_of_here | exact Hmx] |].
      apply elem_of_cons in Hy as [-> | Hy];
        [eapply leb_trans; [apply Hlb, list_elem_of_here | exact Hmz] |].
      by apply Hlb, list_elem_of_further.
Qed.

(** *** Trend *)

(** A list of at least two items has an oldest and a newest one. *)

Lemma list_ends {A : Type} (oldest newest : A) (mid : list A) :
  bool_decide (length (oldest :: mid ++ [newest]) < 2) = false /\
  last (oldest :: mid ++ [newest]) = Some newest /\
  head (oldest :: mid ++ [newest]) = Some oldest.
Proof.
  split; [| split; [| done]].
  - apply bool_decide_eq_false. simpl. rewrite length_app. simpl. lia.
  - by rewrite (app_comm_cons mid [newest] oldest), last_snoc.
Qed.

Lemma list_two_ends {A : Type} (h : list A) :
  2 <= length h -> exists oldest mid newest, h = oldest :: mid ++ [newest].
Proof.
  destruct h as [| o l]; simpl; [lia |]. intros Hlen.
  destruct (List.exists_last (l := l)) as (mid & n & ->);
    [destruct l; simpl in *; [lia | done] |].
  by exists o, mid, n.
Qed.

(** With a non-zero oldest sample the answer is decided by the change of
    the newest sample against it, through the four comparisons in the order
    of the source. *)
Lemma trend_branches oldest mid newest :
  (oldest =? 0)%float = false ->
  let change := ((newest - oldest) / oldest * 100)%float in
  get_price_trend (oldest :: mid ++ [newest]) =
    if (5 <? change)%float then Ok (StrongUpward change)
    else if (0 <? change)%float then Ok (SlightUpward change)
    else if (change <? -5)%float then Ok (StrongDownward change)
    else if (change <? 0)%float then Ok (SlightDownward change)
    else Ok StablePrice.
Proof.
  intros Hnz change. unfold get_price_trend.
  destruct (list_ends oldest newest mid) as (Hlen & Hlast & Hhead).
  rewrite Hlen, Hlast, Hhead, Hnz. reflexivity.
Qed.

(** With a zero oldest sample, of either sign, the quotient raises. *)
Lemma trend_zero_oldest oldest mid newest :
  (oldest =? 0)%float = true ->
  get_price_trend (oldest :: mid ++ [newest]) = Raise ZeroDivisionError.
Proof.
  intros Hz. unfold get_price_trend.
  destruct (list_ends oldest newest mid) as (Hlen & Hlast & Hhead).
  by rewrite Hlen, Hlast, Hhead, Hz.
Qed.

(** The binary64 version raises on the same histories as the exact one:
    at least two samples, the oldest being a zero. *)
Lemma get_price_trend_raise_zero (h : list float) (e : exn) :
  get_price_trend h = Raise e <->
  e = ZeroDivisionError /\ 2 <= length h /\
  exists oldest, head h = Some oldest /\ (oldest =? 0)%float = true.
Proof.
  split.
  - intros Hraise.
    destruct (decide (length h < 2)) as [Hlen | Hlen].
    + unfold get_price_trend in Hraise. by rewrite bool_decide_eq_true_2 in Hraise.
    + apply Nat.nlt_ge in Hlen.
      destruct (list_two_ends h Hlen) as (o & mid & n & ->).
      destruct (o =? 0)%float eqn:Ho.
      * rewrite trend_zero_oldest in Hraise by done.
        injection Hraise as <-. split; [done |]. split; [done |]. by exists o.
      * rewrite trend_branches in Hraise by done.
        cbv zeta in Hraise.
        repeat match type of Hraise with
               | context [if ?b then _ else _] => destruct b
               end; discriminate.
  - intros (-> & Hlen & o & Hhead & Ho).
    destruct (list_two_ends h Hlen) as (o' & mid & n & ->).
    injection Hhead as ->. by apply trend_zero_oldest.
Qed.

(** C6, as the code has it: [get_price_trend()] reports insufficient data
    for fewer than two samples; otherwise, the oldest retained sample being
    other than zero, it takes the change of the newest sample against the
    oldest one, in percent and as binary64 arithmetic computes it (the
    difference, the quotient and the product by 100 each rounded), whatever
    lies between the two samples, and answers strong up when that change is
    above 5, slight up above 0 and up to 5, strong down below -5, slight down
    from -5 to below 0, and stable at 0.  In [100, 200, 110] the trend is the
    +10 percent against 100, not the fall from 200. *)
Theorem get_price_trend_classifies (h : list float) :
  (length h < 2 -> get_price_trend h = Ok InsufficientData) /\
  (forall oldest mid newest,
     h = oldest :: mid ++ [newest] ->
     (oldest =? 0)%float = false ->
     let change := ((newest - oldest) / oldest * 100)%float in
     ((5 <? change)%float = true -> get_price_trend h = Ok (StrongUpward change)) /\
     ((0 <? change)%float = true /\ (change <=? 5)%float = true ->
        get_price_trend h = Ok (SlightUpward change)) /\
     ((change <? -5)%float = true -> get_price_trend h = Ok (StrongDownward change)) /\
     ((-5 <=? change)%float = true /\ (change <? 0)%float = true ->
        get_price_trend h = Ok (SlightDownward change)) /\
     ((change =? 0)%float = true -> get_price_trend h = Ok StablePrice)) /\
  get_price_trend [100; 200; 110]%float = Ok (StrongUpward 10%float).
Proof.
  split; [| split; [| reflexivity]].
  - intros Hlen. unfold get_price_trend. by rewrite bool_decide_eq_true_2.
  - intros oldest mid newest -> Hnz change.
    rewrite (trend_branches oldest mid newest Hnz). fold change.
    assert (H05 : (0 <? 5)%float = true) by reflexivity.
    assert (H50 : (-5 <? 0)%float = true) by reflexivity.
    repeat split.
    + by intros ->.
    + intros [Hpos Hle]. by rewrite (leb_not_ltb _ _ Hle), Hpos.
    + intros Hc.
      assert (Hneg : (change <? 0)%float = true)
        by exact (ltb_trans change (-5)%float 0%float Hc H50).
      rewrite (ltb_asym _ _ (ltb_trans change 0%float 5%float Hneg H05)), (ltb_asym _ _ Hneg).
      by rewrite Hc.
    + intros [Hge Hneg].
      rewrite (ltb_asym _ _ (ltb_trans change 0%float 5%float Hneg H05)), (ltb_asym _ _ Hneg).
      by rewrite (leb_not_ltb _ _ Hge), Hneg.
    + intros Hz.
      rewrite (eqb_ltb_r _ _ 5%float Hz), (eqb_ltb_r _ _ 0%float Hz).
      rewrite (eqb_ltb_l _ _ (-5)%float Hz), (eqb_ltb_l _ _ 0%float Hz).
      reflexivity.
Qed.

Lemma get_price_trend_classifies_witness :
  get_price_trend [100]%float = Ok InsufficientData /\
  get_price_trend [100; 110]%float =
    Ok (StrongUpward ((110 - 100) / 100 * 100)%float) /\
  get_price_trend [100; 99]%float =
    Ok (SlightDownward ((99 - 100) / 100 * 100)%float).
Proof.
  split; [| split].
  - apply (proj1 (get_price_trend_classifies [100]%float)). simpl. lia.
  - apply (proj1 (proj1 (proj2 (get_price_trend_classifies [100; 110]%float))
             100%float [] 110%float eq_refl eq_refl)).
    reflexivity.
  - apply (proj1 (proj2 (proj2 (proj2 (proj1 (proj2
             (get_price_trend_classifies [100; 99]%float))
             100%float [] 99%float eq_refl eq_refl))))).
    split; reflexivity.
Defined.

(** C6 as stated fails in two ways.  On the history [0, 5] the quotient by
    the oldest sample raises [ZeroDivisionError] and no label is answered.
    On the history [7.21, 7.5705] the change of the two samples is above 5
    percent as a number, yet the code computes exactly 5 and answers slight
    up, not strong up. *)
Lemma get_price_trend_counterexample :
  get_price_trend [0; 5]%float = Raise ZeroDivisionError /\
  get_price_trend [7.21; 7.5705]%float = Ok (SlightUpward 5%float) /\
  (5 < (to_Q 7.5705 - to_Q 7.21) / to_Q 7.21 * 100)%Q.
Proof. split; [| split]; reflexivity. Qed.

(** *** Statistics *)




End F64Facts.


(** ** The threshold check of the poll loop *)

Lemma increases_to_app u evs1 evs2 :
  increases_to u (evs1 ++ evs2) = increases_to u evs1 ++ increases_to u evs2.
Proof. apply List.filter_app. Qed.

Lemma increases_to_other u v evs :
  u <> v -> Forall (fun e => recipient e = v) evs -> increases_to u evs = [].
Proof.
  intros Huv. induction 1 as [| e evs He _ IH]; simpl; [done |].
  rewrite bool_decide_eq_false_2 by congruence. exact IH.
Qed.

Lemma increases_to_targets u x als evs :
  map text evs = map (target_msg x) als -> increases_to u evs = [].
Proof.
  revert als. induction evs as [| e evs IH]; intros als Hmap; simpl; [done |].
  destruct als as [| a als]; [done |]. simpl in Hmap.
  injection Hmap as -> Hmap. simpl. rewrite andb_false_r. by eapply IH.
Qed.

Section PollEffects.
Context `{D : Dispatcher}.

Lemma send_all_calls user_id msgs w :
  exists evs,
    calls (send_all user_id msgs w) = calls w ++ evs /\
    map text evs = msgs /\
    Forall (fun e => recipient e = user_id) evs.
Proof.
  unfold send_all. revert w.
  induction msgs as [| m msgs IH]; intros w; cbn [foldl].
  - exists []. by rewrite app_nil_r.
  - destruct (IH (send user_id m w).2) as (evs & Hcalls & Htext & Hto).
    eexists (_ :: evs). rewrite Hcalls. cbn [send snd calls].
    rewrite <- app_assoc. split; [reflexivity |].
    split; [simpl; by rewrite Htext | by constructor].
Qed.

(** The threshold check: when [int(x)] exceeds the last notified price one
    text is handed to the transport, and the price is stored if the call
    did not raise; otherwise nothing happens. *)
Lemma check_increase_effect x user_id ud w :
  tracking_users (bot w) !! user_id = Some ud ->
  exists evs ud1,
    calls (check_increase x user_id ud w) = calls w ++ evs /\
    Forall (fun e => recipient e = user_id) evs /\
    tracking_users (bot (check_increase x user_id ud w)) =
      <[user_id := ud1]> (tracking_users (bot w)) /\
    tracking ud1 = tracking ud /\
    alerts ud1 = alerts ud /\
    if bool_decide (last_notification_price ud < py_int x)%Z then
      exists ok, evs = [mkSend user_id (IncreaseMsg x) ok] /\
        ok = (send_message (chat w) user_id (IncreaseMsg x)).1 /\
        last_notification_price ud1 =
          if ok then py_int x else last_notification_price ud
    else evs = [] /\ last_notification_price ud1 = last_notification_price ud.
Proof.
  intros Hud. unfold check_increase.
  destruct (bool_decide (last_notification_price ud < py_int x)%Z).
  - destruct (send user_id (IncreaseMsg x) w).1 eqn:Hok.
    + eexists _, _. cbn [send set_bot set_tracking_users bot calls tracking_users snd].
      split; [reflexivity |]. split; [by repeat constructor |].
      split; [reflexivity |]. split; [reflexivity |]. split; [reflexivity |].
      simpl in Hok. exists true. rewrite Hok. done.
    + exists [mkSend user_id (IncreaseMsg x) false], ud.
      cbn [send bot calls snd].
      split; [simpl in Hok; by rewrite Hok |]. split; [by repeat constructor |].
      split; [by rewrite insert_id |]. split; [reflexivity |]. split; [reflexivity |].
      simpl in Hok. exists false. by rewrite Hok.
  - exists [], ud. rewrite app_nil_r. split; [reflexivity |].
    split; [constructor |]. split; [by rewrite insert_id |]. done.
Qed.

(** The loop body for a user whose record has the tracking flag. *)
Lemma notify_user_effect x user_id ud w :
  tracking_users (bot w) !! user_id = Some ud ->
  tracking ud = true ->
  exists evs ud',
    calls (notify_user x user_id w) = calls w ++ evs /\
    Forall (fun e => recipient e = user_id) evs /\
    tracking_users (bot (notify_user x user_id w)) =
      <[user_id := ud']> (tracking_users (bot w)) /\
    tracking ud' = true /\
    if bool_decide (last_notification_price ud < py_int x)%Z then
      exists ok, increases_to user_id evs = [mkSend user_id (IncreaseMsg x) ok] /\
        ok = (send_message (chat w) user_id (IncreaseMsg x)).1 /\
        last_notification_price ud' =
          if ok then py_int x else last_notification_price ud
    else increases_to user_id evs = [] /\
         last_notification_price ud' = last_notification_price ud.
Proof.
  intros Hud Htr. unfold notify_user. rewrite Hud, Htr.
  destruct (check_increase_effect x user_id ud w Hud)
    as (evs1 & ud1 & Hcalls1 & Hto1 & Hreg1 & Htr1 & Hal1 & Hcase).
  set (w1 := check_increase x user_id ud w) in *.
  assert (Hud1 : tracking_users (bot w1) !! user_id = Some ud1)
    by (rewrite Hreg1; apply lookup_insert_eq).
  rewrite (check_price_alerts_known _ _ _ _ Hud1). cbn [fst snd].
  destruct (send_all_calls user_id
              (map (target_msg x) (List.filter (due x) (alerts ud1)))
              (set_bot w1 (set_tracking_users (bot w1)
                 (<[user_id := mkUserData (last_notification_price ud1) (tracking ud1)
                                 (map (mark x) (alerts ud1))]>
                    (tracking_users (bot w1))))))
    as (evs2 & Hcalls2 & Htext2 & Hto2).
  eexists (evs1 ++ evs2), _.
  rewrite Hcalls2, bot_send_all. cbn [set_bot set_tracking_users bot calls tracking_users].
  rewrite Hcalls1, Hreg1, insert_insert_eq, <- app_assoc.
  split; [reflexivity |]. split; [by apply Forall_app |].
  split; [reflexivity |]. cbn [tracking last_notification_price].
  split; [congruence |].
  rewrite increases_to_app, (increases_to_targets _ _ _ _ Htext2), app_nil_r.
  destruct (bool_decide (last_notification_price ud < py_int x)%Z).
  - destruct Hcase as (ok & -> & Hok & Hlnp). exists ok.
    split; [| by split]. simpl. by rewrite bool_decide_eq_true_2.
  - destruct Hcase as (-> & Hlnp). done.
Qed.

(** The loop body for any user: its calls are for that user and the
    records of the others are kept. *)
Lemma notify_user_frame x user_id w :
  exists evs,
    calls (notify_user x user_id w) = calls w ++ evs /\
    Forall (fun e => recipient e = user_id) evs /\
    (forall v, v <> user_id ->
       tracking_users (bot (notify_user x user_id w)) !! v =
       tracking_users (bot w) !! v).
Proof.
  destruct (tracking_users (bot w) !! user_id) as [ud |] eqn:Hud.
  - destruct (tracking ud) eqn:Htr.
    + destruct (notify_user_effect x user_id ud w Hud Htr)
        as (evs & ud' & Hcalls & Hto & Hreg & _).
      exists evs. split; [exact Hcalls |]. split; [exact Hto |].
      intros v Hv. rewrite Hreg. by apply lookup_insert_ne.
    + exists []. unfold notify_user. rewrite Hud, Htr, app_nil_r. done.
  - exists []. unfold notify_user. rewrite Hud, app_nil_r. done.
Qed.

(** The [for] loop over users that are pairwise distinct: for each of them
    the outcome is that of its own turn; the calls for a user that is not
    in the list carry no threshold text and its record is kept. *)
Lemma notify_users_effect x ids w :
  NoDup ids ->
  exists evs,
    calls (foldl (fun w i => notify_user x i w) w ids) = calls w ++ evs /\
    (forall u, u ∉ ids ->
       increases_to u evs = [] /\
       tracking_users (bot (foldl (fun w i => notify_user x i w) w ids)) !! u =
         tracking_users (bot w) !! u) /\
    (forall u ud, u ∈ ids ->
       tracking_users (bot w) !! u = Some ud ->
       tracking ud = true ->
       exists ud',
         tracking_users (bot (foldl (fun w i => notify_user x i w) w ids)) !! u =
           Some ud' /\
         if bool_decide (last_notification_price ud < py_int x)%Z then
           exists ok, increases_to u evs = [mkSend u (IncreaseMsg x) ok] /\
             (exists c, ok = (send_message c u (IncreaseMsg x)).1) /\
             last_notification_price ud' =
               if ok then py_int x else last_notification_price ud
         else increases_to u evs = [] /\
              last_notification_price ud' = last_notification_price ud).
Proof.
  revert w. induction ids as [| i ids IH]; intros w Hnd.
  - exists []. cbn [foldl]. rewrite app_nil_r. split; [done |].
    split; [done |]. intros u ud Hu. by apply elem_of_nil in Hu.
  - apply NoDup_cons in Hnd as [Hi Hnd]. cbn [foldl].
    destruct (IH (notify_user x i w) Hnd) as (evs2 & Hc2 & Hout & Hin).
    destruct (notify_user_frame x i w) as (evs1 & Hc1 & Hto1 & Hframe).
    exists (evs1 ++ evs2). rewrite Hc2, Hc1, <- app_assoc.
    split; [done |]. split.
    + intros u Hu. apply not_elem_of_cons in Hu as [Hui Hu].
      destruct (Hout u Hu) as [Hinc Hlk].
      rewrite increases_to_app, Hinc, (increases_to_other u i evs1) by done.
      split; [done |]. rewrite Hlk. by apply Hframe.
    + intros u ud Hu Hud Htr. apply elem_of_cons in Hu as [-> | Hu].
      * destruct (notify_user_effect x i ud w Hud Htr)
          as (evs1' & ud' & Hc1' & _ & Hreg & _ & Hcase).
        assert (evs1' = evs1) as ->
          by (rewrite Hc1' in Hc1; by apply app_inv_head in Hc1).
        destruct (Hout i Hi) as [Hinc Hlk].
        exists ud'. rewrite Hlk, Hreg, lookup_insert_eq. split; [done |].
        rewrite increases_to_app, Hinc, app_nil_r.
        destruct (bool_decide (last_notification_price ud < py_int x)%Z);
          [| exact Hcase].
        destruct Hcase as (ok & Hev & Hok & Hlnp). exists ok. eauto.
      * assert (Hui : u <> i) by (intros ->; done).
        rewrite <- (Hframe u Hui) in Hud.
        destruct (Hin u ud Hu Hud Htr) as (ud' & Hlk & Hcase).
        exists ud'. split; [exact Hlk |].
        by rewrite increases_to_app, (increases_to_other u i evs1).
Qed.

End PollEffects.

(** C3, as the code has it: in one iteration of the poll loop at a
    non-negative price [x], for a user whose record has the tracking flag and
    the last notified price [p], a threshold-increase text is handed to the
    transport if and only if [floor x > p], and then exactly once; the last
    notified price becomes [floor x] when that call delivers, and stays [p]
    when the call raises or when no text is due.  With [p = 10], [x = 11.5]
    and a transport that delivers, one text is sent and the price stored is
    11; the next iteration at 11.8 sends nothing. *)
Theorem threshold_increase_notification :
  (forall (D : Dispatcher) (w : World) (x : Qc) (user_id : Z) (ud : UserData),
     tracking_users (bot w) !! user_id = Some ud ->
     tracking ud = true ->
     (of_Z 0 ≤ x)%Qc ->
     exists evs ud',
       calls (poll_once w (Some x)) = calls w ++ evs /\
       tracking_users (bot (poll_once w (Some x))) !! user_id = Some ud' /\
       ((floor x <= last_notification_price ud)%Z ->
          increases_to user_id evs = [] /\
          last_notification_price ud' = last_notification_price ud) /\
       ((last_notification_price ud < floor x)%Z ->
          exists ok,
            increases_to user_id evs = [mkSend user_id (IncreaseMsg x) ok] /\
            (exists c, ok = (send_message c user_id (IncreaseMsg x)).1) /\
            last_notification_price ud' =
              if ok then floor x else last_notification_price ud)) /\
  calls (@poll_once delivering (@mkWorld delivering (one_user 10 []) tt [])
           (Some (dec 23 2))) =
    [mkSend 7 (IncreaseMsg (dec 23 2)) true] /\
  tracking_users
    (bot (@poll_once delivering (@mkWorld delivering (one_user 10 []) tt [])
            (Some (dec 23 2)))) !! 7%Z =
    Some (mkUserData 11 true []) /\
  calls (@poll_once delivering
           (@poll_once delivering (@mkWorld delivering (one_user 10 []) tt [])
              (Some (dec 23 2)))
           (Some (dec 59 5))) =
    [mkSend 7 (IncreaseMsg (dec 23 2)) true].
Proof.
  split; [| split; [| split]]; [| reflexivity ..].
  intros D w x user_id ud Hud Htr Hx.
  unfold poll_once.
  set (w1 := set_bot w (set_price_history (bot w)
                          (append_price (price_history (bot w)) x))).
  destruct (notify_users_effect x
              (map fst (map_to_list (tracking_users (bot w1)))) w1)
    as (evs & Hcalls & _ & Hin); [apply NoDup_fst_map_to_list |].
  destruct (Hin user_id ud) as (ud' & Hlk & Hcase); [| exact Hud | exact Htr |].
  { apply list_elem_of_fmap. exists (user_id, ud). split; [done |].
    by apply elem_of_map_to_list. }
  exists evs, ud'. split; [exact Hcalls |]. split; [exact Hlk |].
  rewrite (py_int_floor x Hx) in Hcase. split.
  - intros Hle. by rewrite bool_decide_eq_false_2 in Hcase by lia.
  - intros Hlt. by rewrite bool_decide_eq_true_2 in Hcase by lia.
Qed.

Lemma threshold_increase_notification_witness :
  exists evs ud',
    calls (@poll_once delivering
             (@mkWorld delivering (one_user 10 [mkAlert (of_Z 12) false]) tt [])
             (Some (dec 23 2))) = [] ++ evs /\
    tracking_users
      (bot (@poll_once delivering
              (@mkWorld delivering (one_user 10 [mkAlert (of_Z 12) false]) tt [])
              (Some (dec 23 2)))) !! 7%Z = Some ud' /\
    increases_to 7 evs = [mkSend 7 (IncreaseMsg (dec 23 2)) true] /\
    last_notification_price ud' = 11%Z.
Proof.
  destruct (proj1 threshold_increase_notification delivering
              (@mkWorld delivering (one_user 10 [mkAlert (of_Z 12) false]) tt [])
              (dec 23 2) 7%Z (mkUserData 10 true [mkAlert (of_Z 12) false]))
    as (evs & ud' & Hcalls & Hlk & _ & Hgt);
    [reflexivity | reflexivity | unfold Qcle; vm_compute; discriminate |].
  destruct Hgt as (ok & Hinc & [c Hok] & Hlnp); [vm_compute; reflexivity |].
  simpl in Hok. subst ok.
  exists evs, ud'. split; [exact Hcalls |]. split; [exact Hlk |].
  split; [exact Hinc | exact Hlnp].
Defined.

(** C3 as stated fails when the transport raises: with [p = 10] and
    [x = 11.5] the text is handed over once, yet the last notified price is
    still 10 and not [floor 11.5 = 11], and the next iteration at 11.8 hands
    over a second text. *)
Lemma increase_not_stored_when_send_raises :
  floor (dec 23 2) = 11%Z /\
  calls (@poll_once failing (@mkWorld failing (one_user 10 []) tt [])
           (Some (dec 23 2))) =
    [mkSend 7 (IncreaseMsg (dec 23 2)) false] /\
  tracking_users
    (bot (@poll_once failing (@mkWorld failing (one_user 10 []) tt [])
            (Some (dec 23 2)))) !! 7%Z =
    Some (mkUserData 10 true []) /\
  increases_to 7
    (calls (@poll_once failing
              (@poll_once failing (@mkWorld failing (one_user 10 []) tt [])
                 (Some (dec 23 2)))
              (Some (dec 59 5)))) =
    [mkSend 7 (IncreaseMsg (dec 23 2)) false; mkSend 7 (IncreaseMsg (dec 59 5)) false].
Proof. repeat split; reflexivity. Qed.

(** * Further properties of the code *)

(** ** How the registry operations compose *)

(** X1: starting to track an unknown user and stopping right away gives the
    bot back as it was, whatever the price fetched and the initial price. *)
Theorem start_then_stop_restores (p : Qc) (user_id : Z) (initial_price : option Z)
    (b : Bot) :
  tracking_users b !! user_id = None ->
  start_price_tracking (Some p) user_id initial_price b =
    (true, (start_price_tracking (Some p) user_id initial_price b).2) /\
  stop_price_tracking user_id
    (start_price_tracking (Some p) user_id initial_price b).2 = (true, b).
Proof.
  intros Hnone. unfold start_price_tracking. rewrite Hnone. cbn [snd].
  split; [reflexivity |].
  unfold stop_price_tracking. cbn [set_tracking_users tracking_users].
  rewrite lookup_insert_eq. cbn [set_tracking_users tracking_users price_history].
  rewrite insert_insert_eq, delete_insert_eq, delete_id by done.
  by destruct b.
Qed.

Lemma start_then_stop_restores_witness :
  stop_price_tracking 7 (start_price_tracking (Some (dec 23 2)) 7 None init).2 =
    (true, init).
Proof.
  apply (proj2 (start_then_stop_restores (dec 23 2) 7 None init eq_refl)).
Defined.

(** X2: stopping and starting again does not bring the alerts back: the
    record of the user is replaced by a fresh one, with no alert and the
    last notified price taken from the new fetch; the other users and the
    history are kept. *)
Theorem stop_then_start_forgets_alerts (p : Qc) (user_id : Z) (ud : UserData)
    (b : Bot) :
  tracking_users b !! user_id = Some ud ->
  start_price_tracking (Some p) user_id None (stop_price_tracking user_id b).2 =
    (true, set_tracking_users b
             (<[user_id := mkUserData (py_int p) true []]> (tracking_users b))).
Proof.
  intros Hud. unfold stop_price_tracking. rewrite Hud. cbn [snd].
  unfold start_price_tracking. cbn [set_tracking_users tracking_users].
  rewrite lookup_delete_eq. cbn [or_int set_tracking_users tracking_users price_history].
  by rewrite delete_insert_eq, insert_delete_eq.
Qed.

Lemma stop_then_start_forgets_alerts_witness :
  start_price_tracking (Some (dec 23 2)) 7 None
    (stop_price_tracking 7 (one_user 40 [mkAlert (of_Z 50) false])).2 =
  (true, set_tracking_users (one_user 40 [mkAlert (of_Z 50) false])
           (<[7%Z := mkUserData (py_int (dec 23 2)) true []]>
              (tracking_users (one_user 40 [mkAlert (of_Z 50) false])))).
Proof.
  apply (stop_then_start_forgets_alerts (dec 23 2) 7
           (mkUserData 40 true [mkAlert (of_Z 50) false])).
  reflexivity.
Defined.

(** X3: [set_price_alert] succeeds exactly when the user is known or the
    fetch succeeds; when it succeeds, the record of the user holds the
    earlier alerts, unchanged, followed by the new one, not triggered, the
    last notified price of a known user is kept, and the other users and the
    history are kept; when it does not, it raises [TypeError] and the bot is
    unchanged. *)
Theorem set_price_alert_spec (fetched : option Qc) (user_id : Z) (target_price : Qc)
    (b : Bot) :
  let r := set_price_alert fetched user_id target_price b in
  let before := from_option alerts [] (tracking_users b !! user_id) in
  (r.1 = Ok tt <-> is_Some (tracking_users b !! user_id) \/ is_Some fetched) /\
  (r.1 = Ok tt ->
     exists ud',
       tracking_users r.2 !! user_id = Some ud' /\
       alerts ud' = before ++ [mkAlert target_price false] /\
       (forall ud, tracking_users b !! user_id = Some ud ->
          tracking ud' = tracking ud /\
          last_notification_price ud' = last_notification_price ud) /\
       (forall v, v <> user_id -> tracking_users r.2 !! v = tracking_users b !! v) /\
       price_history r.2 = price_history b) /\
  (r.1 <> Ok tt -> r = (Raise TypeError, b)).
Proof.
  intros r before. subst r before. unfold set_price_alert.
  destruct (tracking_users b !! user_id) as [ud |] eqn:Hud; cbn [fst snd from_option].
  - split; [split; [intros _; left; by eexists | done] |].
    split; [| done]. intros _.
    cbn [set_tracking_users tracking_users price_history].
    eexists. split; [apply lookup_insert_eq |]. split; [done |].
    split; [by intros ? [= <-] |].
    split; [intros v Hv; by apply lookup_insert_ne | done].
  - destruct fetched as [p |]; cbn [fst snd].
    + split; [split; [intros _; right; by eexists | done] |].
      split; [| done]. intros _.
      cbn [set_tracking_users tracking_users price_history].
      eexists. split; [apply lookup_insert_eq |]. split; [done |].
      split; [done |].
      split; [intros v Hv; by apply lookup_insert_ne | done].
    + split; [split; [done | intros [[? [=]] | [? [=]]]] |].
      split; [done | done].
Qed.

Lemma set_price_alert_spec_witness :
  exists ud',
    tracking_users (set_price_alert None 7 (of_Z 60)
                      (one_user 40 [mkAlert (of_Z 50) true])).2 !! 7%Z = Some ud' /\
    alerts ud' = [mkAlert (of_Z 50) true; mkAlert (of_Z 60) false].
Proof.
  destruct (proj1 (proj2 (set_price_alert_spec None 7 (of_Z 60)
                            (one_user 40 [mkAlert (of_Z 50) true]))) eq_refl)
    as (ud' & Hlk & Hal & _).
  exists ud'. split; [exact Hlk | exact Hal].
Defined.

(** X4: an alert set for a known user is checked after the alerts that were
    there: at a price [x] the texts are those of the earlier alerts,
    followed by the text of the new alert if its target is at most [x]. *)
Theorem set_then_check (fetched : option Qc) (user_id : Z) (target_price x : Qc)
    (b : Bot) :
  is_Some (tracking_users b !! user_id) ->
  (check_price_alerts user_id x
     (set_price_alert fetched user_id target_price b).2).1 =
  (check_price_alerts user_id x b).1 ++
    (if bool_decide (target_price ≤ x)%Qc then [TargetMsg x target_price] else []).
Proof.
  intros [ud Hud]. rewrite (set_price_alert_known _ _ _ _ _ Hud). cbn [snd].
  erewrite check_price_alerts_known by apply lookup_insert_eq.
  rewrite (check_price_alerts_known _ _ _ _ Hud). cbn [fst alerts].
  rewrite List.filter_app, map_app. f_equal.
  cbn [List.filter]. unfold due at 1. cbn [triggered target negb andb].
  by destruct (bool_decide (target_price ≤ x)%Qc).
Qed.

Lemma set_then_check_witness :
  (check_price_alerts 7 (of_Z 60)
     (set_price_alert None 7 (of_Z 55) (one_user 40 [mkAlert (of_Z 50) false])).2).1 =
  [TargetMsg (of_Z 60) (of_Z 50); TargetMsg (of_Z 60) (of_Z 55)].
Proof.
  rewrite (set_then_check None 7 (of_Z 55) (of_Z 60)
             (one_user 40 [mkAlert (of_Z 50) false]));
    [reflexivity | by eexists].
Defined.

(** X5: an initial price given to [start_price_tracking] does not replace
    the fetch: with a failing fetch nothing is stored.  With a successful
    fetch a non-zero initial price is stored as it is, and a zero one is
    ignored, [int] of the fetched price being stored instead. *)
Theorem start_price_tracking_initial_price (user_id : Z) (v : Z) (b : Bot) :
  tracking_users b !! user_id = None ->
  start_price_tracking None user_id (Some v) b = (false, b) /\
  (forall p,
     tracking_users (start_price_tracking (Some p) user_id (Some v) b).2 !! user_id =
       Some (mkUserData (if bool_decide (v = 0%Z) then py_int p else v) true [])).
Proof.
  intros Hnone. unfold start_price_tracking. rewrite Hnone.
  split; [reflexivity |]. intros p. cbn [snd set_tracking_users tracking_users or_int].
  apply lookup_insert_eq.
Qed.

Lemma start_price_tracking_initial_price_witness :
  tracking_users (start_price_tracking (Some (dec 23 2)) 7 (Some 0%Z) init).2 !! 7%Z =
    Some (mkUserData 11 true []) /\
  tracking_users (start_price_tracking (Some (dec 23 2)) 7 (Some 3%Z) init).2 !! 7%Z =
    Some (mkUserData 3 true []).
Proof.
  split.
  - apply (proj2 (start_price_tracking_initial_price 7 0 init eq_refl) (dec 23 2)).
  - apply (proj2 (start_price_tracking_initial_price 7 3 init eq_refl) (dec 23 2)).
Defined.

(** ** One iteration of the poll loop, user by user *)

Lemma calls_to_app u evs1 evs2 :
  calls_to u (evs1 ++ evs2) = calls_to u evs1 ++ calls_to u evs2.
Proof. apply List.filter_app. Qed.

Lemma calls_to_same u evs :
  Forall (fun e => recipient e = u) evs -> calls_to u evs = evs.
Proof.
  induction 1 as [| e evs He _ IH]; simpl; [done |].
  by rewrite bool_decide_eq_true_2, IH.
Qed.

Lemma calls_to_other u v evs :
  u <> v -> Forall (fun e => recipient e = v) evs -> calls_to u evs = [].
Proof.
  intros Huv. induction 1 as [| e evs He _ IH]; simpl; [done |].
  rewrite bool_decide_eq_false_2 by congruence. exact IH.
Qed.

Lemma keeps_shape_refl o : keeps_shape o o.
Proof. destruct o; simpl; [by split | done]. Qed.

Lemma keeps_shape_trans o1 o2 o3 :
  keeps_shape o1 o2 -> keeps_shape o2 o3 -> keeps_shape o1 o3.
Proof.
  destruct o1, o2, o3; simpl; try done.
  intros [Ht1 Ha1] [Ht2 Ha2]. split; congruence.
Qed.

Lemma map_target_mark x als : map target (map (mark x) als) = map target als.
Proof.
  rewrite map_map. apply map_ext. intros a. apply target_mark.
Qed.

Section PollUsers.
Context `{D : Dispatcher}.

(** The loop body for a user whose record has the tracking flag: the calls
    are for that user and carry [tick_texts]; the alerts are marked whether
    the calls deliver or raise. *)
Lemma notify_user_texts x user_id ud w :
  tracking_users (bot w) !! user_id = Some ud ->
  tracking ud = true ->
  exists evs ud',
    calls (notify_user x user_id w) = calls w ++ evs /\
    Forall (fun e => recipient e = user_id) evs /\
    map text evs = tick_texts x ud /\
    tracking_users (bot (notify_user x user_id w)) =
      <[user_id := ud']> (tracking_users (bot w)) /\
    tracking ud' = true /\
    alerts ud' = map (mark x) (alerts ud).
Proof.
  intros Hud Htr. unfold notify_user. rewrite Hud, Htr.
  destruct (check_increase_effect x user_id ud w Hud)
    as (evs1 & ud1 & Hcalls1 & Hto1 & Hreg1 & Htr1 & Hal1 & Hcase).
  set (w1 := check_increase x user_id ud w) in *.
  assert (Hud1 : tracking_users (bot w1) !! user_id = Some ud1)
    by (rewrite Hreg1; apply lookup_insert_eq).
  rewrite (check_price_alerts_known _ _ _ _ Hud1). cbn [fst snd].
  destruct (send_all_calls user_id
              (map (target_msg x) (List.filter (due x) (alerts ud1)))
              (set_bot w1 (set_tracking_users (bot w1)
                 (<[user_id := mkUserData (last_notification_price ud1) (tracking ud1)
                                 (map (mark x) (alerts ud1))]>
                    (tracking_users (bot w1))))))
    as (evs2 & Hcalls2 & Htext2 & Hto2).
  eexists (evs1 ++ evs2), _.
  rewrite Hcalls2, bot_send_all. cbn [set_bot set_tracking_users bot calls tracking_users].
  rewrite Hcalls1, Hreg1, insert_insert_eq, <- app_assoc.
  split; [reflexivity |]. split; [by apply Forall_app |].
  split; [| split; [reflexivity |]; cbn [tracking alerts]; split; congruence].
  rewrite map_app, Htext2, Hal1. unfold tick_texts. f_equal.
  destruct (bool_decide (last_notification_price ud < py_int x)%Z).
  - by destruct Hcase as (ok & -> & _).
  - by destruct Hcase as (-> & _).
Qed.

(** The loop body for a user without a record, or whose record has no
    tracking flag, does nothing. *)
Lemma notify_user_skip x user_id w :
  (forall ud, tracking_users (bot w) !! user_id = Some ud -> tracking ud = false) ->
  notify_user x user_id w = w.
Proof.
  intros Hno. unfold notify_user.
  destruct (tracking_users (bot w) !! user_id) as [ud |]; [| done].
  by rewrite (Hno ud eq_refl).
Qed.

(** The loop body, for any user: the calls are for that user, who has a
    record with the tracking flag if there is any call; every record keeps
    its shape. *)
Lemma notify_user_shape x user_id w :
  exists evs,
    calls (notify_user x user_id w) = calls w ++ evs /\
    Forall (fun e => recipient e = user_id /\
                     exists ud, tracking_users (bot w) !! user_id = Some ud /\
                                tracking ud = true) evs /\
    (forall v, keeps_shape (tracking_users (bot w) !! v)
                           (tracking_users (bot (notify_user x user_id w)) !! v)).
Proof.
  destruct (tracking_users (bot w) !! user_id) as [ud |] eqn:Hud.
  - destruct (tracking ud) eqn:Htr.
    + destruct (notify_user_texts x user_id ud w Hud Htr)
        as (evs & ud' & Hcalls & Hto & _ & Hreg & Htr' & Hal).
      exists evs. split; [exact Hcalls |]. split.
      * eapply Forall_impl; [exact Hto |]. intros e He. split; [exact He |].
        by exists ud.
      * intros v. rewrite Hreg. destruct (decide (v = user_id)) as [-> | Hv].
        -- rewrite lookup_insert_eq, Hud. simpl. split; [congruence |].
           rewrite Hal. apply map_target_mark.
        -- rewrite lookup_insert_ne by done. apply keeps_shape_refl.
    + exists []. rewrite notify_user_skip, app_nil_r by (intros ? ?; congruence).
      split; [done |]. split; [constructor |]. intros v. apply keeps_shape_refl.
  - exists []. rewrite notify_user_skip, app_nil_r by (intros ? ?; congruence).
    split; [done |]. split; [constructor |]. intros v. apply keeps_shape_refl.
Qed.

(** The [for] loop over any list of users. *)
Lemma notify_users_shape x ids w :
  exists evs,
    calls (foldl (fun w i => notify_user x i w) w ids) = calls w ++ evs /\
    Forall (fun e => recipient e ∈ ids /\
                     exists ud, tracking_users (bot w) !! recipient e = Some ud /\
                                tracking ud = true) evs /\
    (forall v, keeps_shape (tracking_users (bot w) !! v)
                 (tracking_users (bot (foldl (fun w i => notify_user x i w) w ids)) !! v)).
Proof.
  revert w. induction ids as [| i ids IH]; intros w; cbn [foldl].
  - exists []. rewrite app_nil_r. split; [done |]. split; [constructor |].
    intros v. apply keeps_shape_refl.
  - destruct (notify_user_shape x i w) as (evs1 & Hc1 & Hto1 & Hsh1).
    destruct (IH (notify_user x i w)) as (evs2 & Hc2 & Hto2 & Hsh2).
    exists (evs1 ++ evs2). rewrite Hc2, Hc1, <- app_assoc.
    split; [done |]. split.
    + apply Forall_app. split.
      * eapply Forall_impl; [exact Hto1 |]. intros e [-> Hrec].
        split; [apply list_elem_of_here | exact Hrec].
      * eapply Forall_impl; [exact Hto2 |]. intros e [Hin (ud1 & Hlk1 & Htr1)].
        split; [by apply list_elem_of_further |].
        specialize (Hsh1 (recipient e)). rewrite Hlk1 in Hsh1.
        destruct (tracking_users (bot w) !! recipient e) as [ud |]; [| done].
        exists ud. split; [done |]. destruct Hsh1 as [Ht _]. congruence.
    + intros v. eapply keeps_shape_trans; [apply Hsh1 | apply Hsh2].
Qed.

(** The [for] loop over distinct users, seen from one of them: its turn
    starts with its record as it was, the calls for it are those of its
    turn, and its record afterwards is the one its turn leaves. *)
Lemma notify_users_turn x ids w u :
  NoDup ids -> u ∈ ids ->
  exists w0 evs_u evs,
    tracking_users (bot w0) !! u = tracking_users (bot w) !! u /\
    calls (notify_user x u w0) = calls w0 ++ evs_u /\
    calls (foldl (fun w i => notify_user x i w) w ids) = calls w ++ evs /\
    calls_to u evs = calls_to u evs_u /\
    tracking_users (bot (foldl (fun w i => notify_user x i w) w ids)) !! u =
      tracking_users (bot (notify_user x u w0)) !! u.
Proof.
  revert w. induction ids as [| i ids IH]; intros w Hnd Hu.
  - by apply elem_of_nil in Hu.
  - apply NoDup_cons in Hnd as [Hi Hnd]. cbn [foldl].
    destruct (notify_user_frame x i w) as (evs1 & Hc1 & Hto1 & Hframe).
    apply elem_of_cons in Hu as [-> | Hu].
    + destruct (notify_users_effect x ids (notify_user x i w) Hnd)
        as (evs2 & Hc2 & Hout & _).
      destruct (notify_users_shape x ids (notify_user x i w))
        as (evs2' & Hc2' & Hto2 & _).
      assert (evs2' = evs2) as ->
        by (rewrite Hc2 in Hc2'; by apply app_inv_head in Hc2').
      exists w, evs1, (evs1 ++ evs2). split; [done |]. split; [exact Hc1 |].
      rewrite Hc2, Hc1, <- app_assoc. split; [done |].
      split; [| by apply Hout].
      rewrite calls_to_app. replace (calls_to i evs2) with (@nil send_event);
        [by rewrite app_nil_r |].
      symmetry. clear -Hto2 Hi. induction Hto2 as [| e evs [He _] _ IHf]; simpl; [done |].
      rewrite bool_decide_eq_false_2 by (intros Heq; rewrite Heq in He; done).
      exact IHf.
    + assert (Hui : u <> i) by (intros ->; done).
      destruct (IH (notify_user x i w) Hnd Hu)
        as (w0 & evs_u & evs2 & Hlk & Hcu & Hc2 & Hto & Hfin).
      exists w0, evs_u, (evs1 ++ evs2).
      split; [rewrite Hlk; by apply Hframe |]. split; [exact Hcu |].
      rewrite Hc2, Hc1, <- app_assoc. split; [done |].
      split; [| exact Hfin].
      by rewrite calls_to_app, (calls_to_other u i evs1).
Qed.

End PollUsers.

Lemma poll_once_ids_NoDup (r : gmap Z UserData) :
  NoDup (map fst (map_to_list r)).
Proof. apply NoDup_fst_map_to_list. Qed.

Lemma poll_once_ids_elem (r : gmap Z UserData) u ud :
  r !! u = Some ud -> u ∈ map fst (map_to_list r).
Proof.
  intros Hud. apply list_elem_of_fmap. exists (u, ud). split; [done |].
  by apply elem_of_map_to_list.
Qed.

Lemma target_texts_of_tick x ud :
  List.filter (fun m => negb (is_increase m)) (tick_texts x ud) =
  map (target_msg x) (List.filter (due x) (alerts ud)).
Proof.
  unfold tick_texts. rewrite List.filter_app.
  replace (List.filter _ (if bool_decide _ then [IncreaseMsg x] else []))
    with (@nil message) by (by case_bool_decide).
  cbn [app]. induction (List.filter (due x) (alerts ud)) as [| a l IH]; simpl; [done |].
  by rewrite IH.
Qed.

(** One iteration of the poll loop, seen from a user with the tracking
    flag. *)
Lemma poll_once_user_turn `{D : Dispatcher} (w : World) (x : Qc) (user_id : Z)
    (ud : UserData) :
  tracking_users (bot w) !! user_id = Some ud ->
  tracking ud = true ->
  exists evs ud',
    calls (poll_once w (Some x)) = calls w ++ evs /\
    map text (calls_to user_id evs) = tick_texts x ud /\
    tracking_users (bot (poll_once w (Some x))) !! user_id = Some ud' /\
    tracking ud' = true /\
    alerts ud' = map (mark x) (alerts ud).
Proof.
  intros Hud Htr. unfold poll_once.
  set (w1 := set_bot w (set_price_history (bot w)
                          (append_price (price_history (bot w)) x))).
  destruct (notify_users_turn x (map fst (map_to_list (tracking_users (bot w1))))
              w1 user_id (poll_once_ids_NoDup _) (poll_once_ids_elem _ _ _ Hud))
    as (w0 & evs_u & evs & Hlk & Hcu & Hc & Hto & Hfin).
  assert (Hud0 : tracking_users (bot w0) !! user_id = Some ud)
    by (rewrite Hlk; exact Hud).
  destruct (notify_user_texts x user_id ud w0 Hud0 Htr)
    as (evs' & ud' & Hc' & Hrec & Htexts & Hreg & Htr' & Hal).
  assert (evs' = evs_u) as ->
    by (rewrite Hc' in Hcu; by apply app_inv_head in Hcu).
  exists evs, ud'. split; [exact Hc |].
  split; [by rewrite Hto, calls_to_same |].
  split; [by rewrite Hfin, Hreg, lookup_insert_eq |]. done.
Qed.

(** X6: in one iteration of the poll loop, a user whose record has the
    tracking flag is sent the threshold text first, if [int] of the price
    exceeds the last notified price, and then one text per due alert in the
    order of the alert list, and nothing else; the due alerts are marked
    triggered whether the calls deliver or raise. *)
Theorem poll_once_texts `{D : Dispatcher} (w : World) (x : Qc) (user_id : Z)
    (ud : UserData) :
  tracking_users (bot w) !! user_id = Some ud ->
  tracking ud = true ->
  exists evs ud',
    calls (poll_once w (Some x)) = calls w ++ evs /\
    map text (calls_to user_id evs) = tick_texts x ud /\
    tracking_users (bot (poll_once w (Some x))) !! user_id = Some ud' /\
    tracking ud' = true /\
    alerts ud' = map (mark x) (alerts ud).
Proof. apply poll_once_user_turn. Qed.

Lemma poll_once_texts_witness :
  exists evs ud',
    calls (@poll_once failing
             (@mkWorld failing (one_user 10 [mkAlert (of_Z 11) false]) tt [])
             (Some (dec 23 2))) = [] ++ evs /\
    map text (calls_to 7 evs) =
      [IncreaseMsg (dec 23 2); TargetMsg (dec 23 2) (of_Z 11)] /\
    tracking_users
      (bot (@poll_once failing
              (@mkWorld failing (one_user 10 [mkAlert (of_Z 11) false]) tt [])
              (Some (dec 23 2)))) !! 7%Z = Some ud' /\
    alerts ud' = [mkAlert (of_Z 11) true].
Proof.
  destruct (@poll_once_texts failing
              (@mkWorld failing (one_user 10 [mkAlert (of_Z 11) false]) tt [])
              (dec 23 2) 7%Z (mkUserData 10 true [mkAlert (of_Z 11) false])
              eq_refl eq_refl)
    as (evs & ud' & Hc & Htexts & Hlk & _ & Hal).
  exists evs, ud'. split; [exact Hc |]. split; [exact Htexts |].
  split; [exact Hlk | exact Hal].
Defined.

(** X7: an alert is sent at most once, also when its call raised: after an
    iteration at [x], the target texts that the next iteration at [y] sends
    to a tracked user are those of the alerts that were not due at [x] and
    are due at [y]. *)
Theorem poll_twice_target_texts `{D : Dispatcher} (w : World) (x y : Qc)
    (user_id : Z) (ud : UserData) :
  tracking_users (bot w) !! user_id = Some ud ->
  tracking ud = true ->
  exists evs,
    calls (poll_once (poll_once w (Some x)) (Some y)) =
      calls (poll_once w (Some x)) ++ evs /\
    List.filter (fun m => negb (is_increase m)) (map text (calls_to user_id evs)) =
      map (target_msg y)
        (List.filter (fun a => negb (due x a) && due y a) (alerts ud)).
Proof.
  intros Hud Htr.
  destruct (poll_once_user_turn w x user_id ud Hud Htr)
    as (evs1 & ud1 & _ & _ & Hlk1 & Htr1 & Hal1).
  destruct (poll_once_user_turn (poll_once w (Some x)) y user_id ud1 Hlk1 Htr1)
    as (evs & ud2 & Hc & Htexts & _).
  exists evs. split; [exact Hc |].
  rewrite Htexts, target_texts_of_tick, Hal1. apply filter_due_mark.
Qed.

Lemma poll_twice_target_texts_witness :
  exists evs,
    calls (@poll_once failing
             (@poll_once failing
                (@mkWorld failing (one_user 10 [mkAlert (of_Z 11) false]) tt [])
                (Some (dec 23 2)))
             (Some (of_Z 12))) =
      calls (@poll_once failing
               (@mkWorld failing (one_user 10 [mkAlert (of_Z 11) false]) tt [])
               (Some (dec 23 2))) ++ evs /\
    List.filter (fun m => negb (is_increase m)) (map text (calls_to 7 evs)) = [].
Proof.
  destruct (@poll_twice_target_texts failing
              (@mkWorld failing (one_user 10 [mkAlert (of_Z 11) false]) tt [])
              (dec 23 2) (of_Z 12) 7%Z (mkUserData 10 true [mkAlert (of_Z 11) false])
              eq_refl eq_refl)
    as (evs & Hc & Htexts).
  exists evs. split; [exact Hc | exact Htexts].
Defined.

(** One iteration of the poll loop, over all records. *)
Lemma poll_once_shape `{D : Dispatcher} (w : World) (fetched : option Qc) :
  exists evs,
    calls (poll_once w fetched) = calls w ++ evs /\
    Forall (fun e => exists ud, tracking_users (bot w) !! recipient e = Some ud /\
                                tracking ud = true) evs /\
    (forall v, keeps_shape (tracking_users (bot w) !! v)
                           (tracking_users (bot (poll_once w fetched)) !! v)).
Proof.
  destruct fetched as [x |]; cbn [poll_once].
  - set (w1 := set_bot w (set_price_history (bot w)
                            (append_price (price_history (bot w)) x))).
    destruct (notify_users_shape x (map fst (map_to_list (tracking_users (bot w1)))) w1)
      as (evs & Hc & Hto & Hsh).
    exists evs. split; [exact Hc |]. split; [| exact Hsh].
    eapply Forall_impl; [exact Hto |]. by intros e [_ He].
  - exists []. rewrite app_nil_r. split; [done |]. split; [constructor |].
    intros v. apply keeps_shape_refl.
Qed.

(** X8: an iteration of the poll loop, whatever the answer of the price
    source, adds and removes no user, keeps the tracking flag of every
    record and the targets of its alerts, and calls [send_message] only for
    users that have a record with the tracking flag: a user without a
    record is sent nothing. *)
Theorem poll_once_frame `{D : Dispatcher} (w : World) (fetched : option Qc) :
  exists evs,
    calls (poll_once w fetched) = calls w ++ evs /\
    Forall (fun e => exists ud, tracking_users (bot w) !! recipient e = Some ud /\
                                tracking ud = true) evs /\
    (forall u, tracking_users (bot w) !! u = None -> calls_to u evs = []) /\
    (forall u, tracking_users (bot (poll_once w fetched)) !! u = None <->
               tracking_users (bot w) !! u = None) /\
    (forall u ud ud',
       tracking_users (bot w) !! u = Some ud ->
       tracking_users (bot (poll_once w fetched)) !! u = Some ud' ->
       tracking ud' = tracking ud /\
       map target (alerts ud') = map target (alerts ud)).
Proof.
  destruct (poll_once_shape w fetched) as (evs & Hc & Hrec & Hsh).
  exists evs. split; [exact Hc |]. split; [exact Hrec |]. split.
  - intros u Hnone. clear -Hrec Hnone.
    induction Hrec as [| e evs (ud & He & _) _ IH]; simpl; [done |].
    rewrite bool_decide_eq_false_2 by (intros Heq; congruence). exact IH.
  - split.
    + intros u. specialize (Hsh u).
      destruct (tracking_users (bot w) !! u),
        (tracking_users (bot (poll_once w fetched)) !! u); simpl in Hsh; done.
    + intros u ud ud' Hud Hud'. specialize (Hsh u).
      rewrite Hud, Hud' in Hsh. exact Hsh.
Qed.

Lemma poll_once_frame_witness :
  exists evs,
    calls (@poll_once delivering
             (@mkWorld delivering
                (stop_price_tracking 7 (one_user 10 [mkAlert (of_Z 11) false])).2 tt [])
             (Some (of_Z 12))) = [] ++ evs /\
    calls_to 7 evs = [].
Proof.
  destruct (@poll_once_frame delivering
              (@mkWorld delivering
                 (stop_price_tracking 7 (one_user 10 [mkAlert (of_Z 11) false])).2 tt [])
              (Some (of_Z 12)))
    as (evs & Hc & _ & Hnone & _).
  exists evs. split; [exact Hc |]. apply Hnone. reflexivity.
Defined.

(** ** The bot after a handler *)

Section HandlerStates.
Context `{C : Chat}.

Lemma sbot_answer user_id r s : sbot (answer user_id r s).2 = sbot s.
Proof. reflexivity. Qed.

Lemma sbot_start_tracking f1 f2 user_id s :
  sbot (start_tracking f1 f2 user_id s).2 =
    (start_price_tracking f1 user_id None (sbot s)).2.
Proof.
  unfold start_tracking, track_except.
  destruct (start_price_tracking f1 user_id None (sbot s)) as [[] b1]; cbn [fst snd].
  - destruct (answer user_id TrackingStarted (set_sbot s b1)).1; reflexivity.
  - destruct f2.
    + destruct (answer user_id AlreadyTracking (set_sbot s b1)).1; reflexivity.
    + destruct (answer user_id CouldNotStart (set_sbot s b1)).1; reflexivity.
Qed.

Lemma sbot_stop_tracking user_id s :
  sbot (stop_tracking user_id s).2 = (stop_price_tracking user_id (sbot s)).2.
Proof.
  unfold stop_tracking.
  by destruct (stop_price_tracking user_id (sbot s)) as [[] b1].
Qed.

End HandlerStates.

(** ** Trend, further *)

Lemma two_ends (h : list Qc) :
  2 <= length h -> exists oldest mid newest, h = oldest :: mid ++ [newest].
Proof.
  destruct h as [| o l]; simpl; [lia |]. intros Hlen.
  destruct (List.exists_last (l := l)) as (mid & n & ->);
    [destruct l; simpl in *; [lia | done] |].
  by exists o, mid, n.
Qed.

(** The sign of the change is the sign of [newest - oldest] when the oldest
    sample is positive. *)
Lemma change_sign (oldest newest : Qc) :
  (of_Z 0 < oldest)%Qc ->
  let change := ((newest - oldest) / oldest * of_Z 100)%Qc in
  ((oldest < newest)%Qc -> (of_Z 0 < change)%Qc) /\
  ((newest < oldest)%Qc -> (change < of_Z 0)%Qc) /\
  (newest = oldest -> change = of_Z 0).
Proof.
  intros Hpos change.
  assert (Hk : (of_Z 0 < / oldest * of_Z 100)%Qc)
    by (apply Qcmult_pos_pos; [by apply Qcinv_pos | reflexivity]).
  assert (Hc : change = ((newest - oldest) * (/ oldest * of_Z 100))%Qc)
    by (unfold change, Qcdiv; symmetry; apply Qcmult_assoc).
  rewrite Hc. split; [| split].
  - intros Hlt. apply Qcmult_pos_pos; [| exact Hk].
    by apply Qclt_minus_iff in Hlt.
  - intros Hlt.
    assert (Hneg : (newest - oldest < of_Z 0)%Qc).
    { apply (Qcplus_lt_mono_r _ _ (- oldest)) in Hlt.
      by rewrite Qcplus_opp_r in Hlt. }
    apply (Qcmult_lt_mono_pos_r _ _ _ Hk) in Hneg.
    by rewrite Qcmult_0_l in Hneg.
  - intros ->. unfold Qcminus. rewrite Qcplus_opp_r. apply Qcmult_0_l.
Qed.

(** X11: on a history whose oldest retained sample is positive, the trend
    goes by the comparison of the newest sample with the oldest one: an
    upward label when it is greater, a downward label when it is smaller,
    the stable label when they are equal. *)
Theorem get_price_trend_direction (b : Bot) (oldest newest : Qc) (mid : list Qc) :
  price_history b = oldest :: mid ++ [newest] ->
  (of_Z 0 < oldest)%Qc ->
  ((oldest < newest)%Qc ->
     exists c, get_price_trend b = Ok (StrongUpward c) \/
               get_price_trend b = Ok (SlightUpward c)) /\
  ((newest < oldest)%Qc ->
     exists c, get_price_trend b = Ok (StrongDownward c) \/
               get_price_trend b = Ok (SlightDownward c)) /\
  (newest = oldest -> get_price_trend b = Ok StablePrice).
Proof.
  intros Hh Hpos.
  assert (Hnz : oldest <> of_Z 0)
    by (intros ->; by apply (Qclt_not_eq _ _ Hpos)).
  rewrite (get_price_trend_branches b oldest mid newest Hh Hnz).
  destruct (change_sign oldest newest Hpos) as (Hup & Hdown & Heq).
  cbv zeta in Hup, Hdown, Heq.
  set (change := ((newest - oldest) / oldest * of_Z 100)%Qc) in *.
  assert (H05 : (of_Z 0 < of_Z 5)%Qc) by reflexivity.
  split; [| split].
  - intros Hlt. specialize (Hup Hlt). exists change.
    destruct (bool_decide (of_Z 5 < change)%Qc); [by left |].
    right. by rewrite bool_decide_eq_true_2.
  - intros Hlt. specialize (Hdown Hlt). exists change.
    rewrite bool_decide_eq_false_2
      by (apply Qclt_asym; eapply Qclt_trans; [exact Hdown | exact H05]).
    rewrite bool_decide_eq_false_2 by by apply Qclt_asym.
    destruct (bool_decide (change < of_Z (-5))%Qc); [by left |].
    right. by rewrite bool_decide_eq_true_2.
  - intros Hsame. rewrite (Heq Hsame). reflexivity.
Qed.

Lemma get_price_trend_direction_witness :
  (exists c, get_price_trend (set_price_history init [of_Z 100; of_Z 50; of_Z 101]) =
               Ok (StrongUpward c) \/
             get_price_trend (set_price_history init [of_Z 100; of_Z 50; of_Z 101]) =
               Ok (SlightUpward c)) /\
  get_price_trend (set_price_history init [of_Z 100; of_Z 50; of_Z 100]) =
    Ok StablePrice.
Proof.
  split.
  - apply (proj1 (get_price_trend_direction
                    (set_price_history init [of_Z 100; of_Z 50; of_Z 101])
                    (of_Z 100) (of_Z 101) [of_Z 50] eq_refl eq_refl)).
    reflexivity.
  - apply (proj2 (proj2 (get_price_trend_direction
                    (set_price_history init [of_Z 100; of_Z 50; of_Z 100])
                    (of_Z 100) (of_Z 100) [of_Z 50] eq_refl eq_refl))).
    reflexivity.
Defined.

Lemma get_price_trend_raise_iff (b : Bot) (e : exn) :
  get_price_trend b = Raise e <->
  e = ZeroDivisionError /\
  2 <= length (price_history b) /\
  head (price_history b) = Some (of_Z 0).
Proof.
  split.
  - unfold get_price_trend. case_bool_decide as Hlen; [done |].
    intros Hraise. apply Nat.nlt_ge in Hlen.
    destruct (two_ends _ Hlen) as (o & mid & n & Hh). rewrite Hh in *.
    destruct (history_ends o n mid) as (_ & Hlast & Hhead).
    cbv zeta in Hlast, Hhead. rewrite Hlast, Hhead in Hraise.
    case_bool_decide as Ho.
    + injection Hraise as <-. subst o. done.
    + repeat case_bool_decide; discriminate.
  - intros (-> & Hlen & Hhead).
    destruct (two_ends _ Hlen) as (o & mid & n & Hh).
    rewrite Hh in Hhead. injection Hhead as ->.
    by apply (get_price_trend_zero_oldest b mid n).
Qed.

(** X12: [get_price_trend()] raises exactly when at least two samples are
    held and the oldest one is zero, and the exception is then
    [ZeroDivisionError]; it never raises [IndexError]. *)
Theorem get_price_trend_raises (b : Bot) (e : exn) :
  get_price_trend b = Raise e <->
  e = ZeroDivisionError /\
  2 <= length (price_history b) /\
  head (price_history b) = Some (of_Z 0).
Proof. apply get_price_trend_raise_iff. Qed.

Lemma get_price_trend_raises_witness :
  get_price_trend (set_price_history init [of_Z 0; of_Z 5]) = Raise ZeroDivisionError.
Proof.
  apply (proj2 (get_price_trend_raises
                  (set_price_history init [of_Z 0; of_Z 5]) ZeroDivisionError)).
  split; [reflexivity |]. split; [simpl; lia | reflexivity].
Defined.

(** ** Statistics, further *)

Module F64Further.
Import Stdlib.Floats.Floats.
Import F64 F64Facts.
Local Set Warnings "-inexact-float".

(** X10: on a non-empty history without NaN, [get_price_stats()] answers a
    low that is at most the current value, a high that is at least the
    current value, and a low that is at most the high.  The average need not
    lie between the two: for [1.9, 1.9, 1.9] it is below the low, and for
    [0.1, 0.1, 0.1] it is above the high. *)
Theorem get_price_stats_low_high :
  (forall h, h <> [] -> no_nan h ->
     exists current high low avg,
       get_price_stats h = Statistics current high low avg /\
       (low <=? current)%float = true /\
       (current <=? high)%float = true /\
       (low <=? high)%float = true) /\
  (exists avg,
     get_price_stats [1.9; 1.9; 1.9]%float = Statistics 1.9 1.9 1.9 avg /\
     (avg <? 1.9)%float = true) /\
  (exists avg,
     get_price_stats [0.1; 0.1; 0.1]%float = Statistics 0.1 0.1 0.1 avg /\
     (0.1 <? avg)%float = true).
Proof.
  split; [| split; eexists; split; reflexivity].
  intros h Hne Hnn. destruct h as [| x l]; [done |].
  destruct (py_max_spec l x Hnn) as [Hmax_in Hmax].
  destruct (py_min_spec l x Hnn) as [Hmin_in Hmin].
  eexists _, _, _, _. split; [reflexivity |].
  assert (Hcur : default x (last (x :: l)) ∈ x :: l).
  { destruct (last (x :: l)) as [c |] eqn:Hlast; simpl.
    - apply last_Some in Hlast as [l' ->]. apply elem_of_app. right.
      apply list_elem_of_here.
    - apply list_elem_of_here. }
  split; [by apply Hmin |]. split; [by apply Hmax |]. by apply Hmax.
Qed.

Lemma get_price_stats_low_high_witness :
  exists current high low avg,
    get_price_stats [3; 1; 2]%float = Statistics current high low avg /\
    (low <=? current)%float = true /\ (current <=? high)%float = true.
Proof.
  destruct (proj1 get_price_stats_low_high [3; 1; 2]%float)
    as (c & hi & lo & avg & Hrun & Hlo & Hhi & _);
    [discriminate | repeat constructor |].
  exists c, hi, lo, avg. split; [exact Hrun |]. split; [exact Hlo | exact Hhi].
Defined.

End F64Further.

(** ** The command handlers *)

Section HandlerReplies.
Context `{C : Chat}.

(** A reply and the [except] clause of [/track]: when the reply raises, the
    error text is sent as well, and the handler lets the exception of that
    second call out. *)
Lemma track_except_answer user_id r s :
  let ok := (reply_to (schan s) user_id r).1 in
  sbot (track_except user_id (answer user_id r s)).2 = sbot s /\
  (ok = true ->
     (track_except user_id (answer user_id r s)).1 = Returned /\
     replies (track_except user_id (answer user_id r s)).2 =
       replies s ++ [mkReply user_id r true]) /\
  (ok = false ->
     exists ok2 : bool,
       (track_except user_id (answer user_id r s)).1 =
         (if ok2 then Returned else Escaped) /\
       replies (track_except user_id (answer user_id r s)).2 =
         replies s ++ [mkReply user_id r false; mkReply user_id TrackError ok2]).
Proof.
  unfold track_except, answer. cbn [fst snd].
  destruct (reply_to (schan s) user_id r) as [[] c1]; cbn [fst snd schan sbot replies].
  - done.
  - split; [done |]. split; [done |]. intros _.
    eexists. split; [reflexivity |]. by rewrite <- app_assoc.
Qed.

Lemma start_tracking_unfold f1 f2 user_id s :
  start_tracking f1 f2 user_id s =
    track_except user_id
      (answer user_id (track_reply (tracking_users (sbot s) !! user_id) f1 f2)
         (set_sbot s (start_price_tracking f1 user_id None (sbot s)).2)).
Proof.
  unfold start_tracking, track_reply, start_price_tracking.
  destruct (tracking_users (sbot s) !! user_id) as [ud |]; cbn [fst snd].
  - by destruct f2.
  - destruct f1; cbn [fst snd]; [done |]. by destruct f2.
Qed.

End HandlerReplies.

Lemma start_tracking_first_reply `{C : Chat} f1 f2 user_id s :
  exists ok rest,
    replies (start_tracking f1 f2 user_id s).2 =
      replies s ++
      mkReply user_id (track_reply (tracking_users (sbot s) !! user_id) f1 f2) ok :: rest.
Proof.
  rewrite start_tracking_unfold.
  destruct (track_except_answer user_id
              (track_reply (tracking_users (sbot s) !! user_id) f1 f2)
              (set_sbot s (start_price_tracking f1 user_id None (sbot s)).2))
    as (_ & Hok & Hfail).
  cbv zeta in Hok, Hfail. cbn [set_sbot schan replies] in Hok, Hfail.
  destruct (reply_to (schan s) user_id
              (track_reply (tracking_users (sbot s) !! user_id) f1 f2)).1.
  - destruct (Hok eq_refl) as [_ ->]. by eexists _, _.
  - destruct (Hfail eq_refl) as (ok2 & _ & ->). by eexists _, _.
Qed.

(** X13: [/track] leaves the bot as [start_price_tracking] leaves it, and
    first tries one reply: "started" exactly when a record was created.  If
    that reply is delivered the handler returns; if it raises, the error
    text is sent as well, also when the record was created, and the handler
    lets an exception out only if this second call raises too. *)
Theorem start_tracking_replies `{C : Chat} (f1 f2 : option Qc) (user_id : Z)
    (s : Session) :
  let r := start_tracking f1 f2 user_id s in
  let first := track_reply (tracking_users (sbot s) !! user_id) f1 f2 in
  let ok := (reply_to (schan s) user_id first).1 in
  sbot r.2 = (start_price_tracking f1 user_id None (sbot s)).2 /\
  (first = TrackingStarted <->
     (start_price_tracking f1 user_id None (sbot s)).1 = true) /\
  (ok = true ->
     r.1 = Returned /\ replies r.2 = replies s ++ [mkReply user_id first true]) /\
  (ok = false ->
     exists ok2 : bool,
       r.1 = (if ok2 then Returned else Escaped) /\
       replies r.2 =
         replies s ++ [mkReply user_id first false; mkReply user_id TrackError ok2]).
Proof.
  intros r first ok. subst r first ok.
  split; [apply sbot_start_tracking |]. split.
  - unfold track_reply, start_price_tracking.
    destruct (tracking_users (sbot s) !! user_id), f1, f2; cbn [fst]; split; done.
  - rewrite start_tracking_unfold.
    destruct (track_except_answer user_id
                (track_reply (tracking_users (sbot s) !! user_id) f1 f2)
                (set_sbot s (start_price_tracking f1 user_id None (sbot s)).2))
      as (_ & Hok & Hfail).
    split; [exact Hok | exact Hfail].
Qed.

Lemma start_tracking_replies_witness :
  exists ok2 : bool,
    (@start_tracking unanswering (Some (dec 23 2)) None 7
       (@mkSession unanswering init tt [])).1 = (if ok2 then Returned else Escaped) /\
    replies (@start_tracking unanswering (Some (dec 23 2)) None 7
               (@mkSession unanswering init tt [])).2 =
      [] ++ [mkReply 7 TrackingStarted false; mkReply 7 TrackError ok2].
Proof.
  apply (proj2 (proj2 (proj2 (@start_tracking_replies unanswering
           (Some (dec 23 2)) None 7 (@mkSession unanswering init tt []))))).
  reflexivity.
Defined.

(** X14: the replies of [/track] that do not tell what happened.  For an
    unknown user, when the fetch of [start_price_tracking] fails and the
    fetch of the handler succeeds, the reply is "already tracking" and no
    record exists; for a known user, when the fetch of the handler fails,
    the reply is "could not start" and the record is kept. *)
Theorem start_tracking_misleading_replies `{C : Chat} (user_id : Z) (s : Session) :
  (forall p, tracking_users (sbot s) !! user_id = None ->
     exists ok rest,
       replies (start_tracking None (Some p) user_id s).2 =
         replies s ++ mkReply user_id AlreadyTracking ok :: rest /\
       tracking_users (sbot (start_tracking None (Some p) user_id s).2) !! user_id =
         None) /\
  (forall f1 ud, tracking_users (sbot s) !! user_id = Some ud ->
     exists ok rest,
       replies (start_tracking f1 None user_id s).2 =
         replies s ++ mkReply user_id CouldNotStart ok :: rest /\
       sbot (start_tracking f1 None user_id s).2 = sbot s).
Proof.
  split.
  - intros p Hnone.
    destruct (start_tracking_first_reply None (Some p) user_id s) as (ok & rest & Hr).
    rewrite Hnone in Hr. exists ok, rest. split; [exact Hr |].
    rewrite sbot_start_tracking, start_price_tracking_fetch_failed. exact Hnone.
  - intros f1 ud Hud.
    destruct (start_tracking_first_reply f1 None user_id s) as (ok & rest & Hr).
    rewrite Hud in Hr. exists ok, rest. split; [exact Hr |].
    rewrite sbot_start_tracking, start_price_tracking_present; [done | by eexists].
Qed.

Lemma start_tracking_misleading_replies_witness :
  exists ok rest,
    replies (@start_tracking answering None (Some (of_Z 3)) 7
               (@mkSession answering init tt [])).2 =
      [] ++ mkReply 7 AlreadyTracking ok :: rest /\
    tracking_users
      (sbot (@start_tracking answering None (Some (of_Z 3)) 7
               (@mkSession answering init tt [])).2) !! 7%Z = None.
Proof.
  apply (proj1 (@start_tracking_misleading_replies answering 7
                  (@mkSession answering init tt [])) (of_Z 3)).
  reflexivity.
Defined.

(** X15: [/stop] deletes the record of the user before it replies, with
    "stopped" if there was a record and "not tracking" if there was none;
    one reply is tried, and if it raises the exception leaves the handler,
    the record being deleted all the same. *)
Theorem stop_tracking_reply `{C : Chat} (user_id : Z) (s : Session) :
  let r := stop_tracking user_id s in
  let body := if bool_decide (is_Some (tracking_users (sbot s) !! user_id))
              then TrackingStopped else NotTracking in
  let ok := (reply_to (schan s) user_id body).1 in
  replies r.2 = replies s ++ [mkReply user_id body ok] /\
  r.1 = (if ok then Returned else Escaped) /\
  tracking_users (sbot r.2) = delete user_id (tracking_users (sbot s)) /\
  price_history (sbot r.2) = price_history (sbot s).
Proof.
  intros r body ok. subst r body ok. unfold stop_tracking, stop_price_tracking.
  destruct (tracking_users (sbot s) !! user_id) as [ud |] eqn:Hud; cbn [fst snd].
  - rewrite bool_decide_eq_true_2 by by eexists.
    unfold answer. cbn [fst snd set_sbot schan replies sbot set_tracking_users
                        tracking_users price_history].
    by rewrite delete_insert_eq.
  - rewrite bool_decide_eq_false_2 by (intros [? [=]]).
    unfold answer. cbn [fst snd set_sbot schan replies sbot].
    by rewrite delete_id.
Qed.

(** X16: the answers of [/setalert] to an input that it rejects: the usage
    text unless there are exactly two items, the invalid-value text when
    [float()] fails on the second item, the positive-value text when the
    number is zero or negative; in each case one reply is tried, the bot is
    unchanged and the handler returns. *)
Theorem set_alert_rejects `{C : Chat} {token : Type} (float_of : token -> option Qc)
    (args : list token) (fetched : option Qc) (user_id : Z) (s : Session) :
  let r := set_alert float_of args fetched user_id s in
  let rejected body :=
    r.1 = Returned /\ sbot r.2 = sbot s /\
    replies r.2 =
      replies s ++ [mkReply user_id body (reply_to (schan s) user_id body).1] in
  (length args <> 2 -> rejected Usage) /\
  (forall cmd arg, args = [cmd; arg] -> float_of arg = None -> rejected InvalidValue) /\
  (forall cmd arg t, args = [cmd; arg] -> float_of arg = Some t ->
     (t ≤ of_Z 0)%Qc -> rejected PositiveValue).
Proof.
  intros r rejected. subst r rejected. cbv beta. unfold set_alert.
  split; [| split].
  - intros Hlen. by rewrite bool_decide_eq_true_2.
  - intros cmd arg -> Hf. rewrite bool_decide_eq_false_2 by (simpl; lia).
    cbn [lookup list_lookup]. by rewrite Hf.
  - intros cmd arg t -> Hf Ht. rewrite bool_decide_eq_false_2 by (simpl; lia).
    cbn [lookup list_lookup]. rewrite Hf. by rewrite bool_decide_eq_true_2.
Qed.

Lemma set_alert_rejects_witness :
  replies (@set_alert answering Z float_of_Z [0%Z; 0%Z] None 7
             (@mkSession answering init tt [])).2 =
    [] ++ [mkReply 7 PositiveValue true] /\
  replies (@set_alert answering Z float_of_Z [0%Z; (-1)%Z] None 7
             (@mkSession answering init tt [])).2 =
    [] ++ [mkReply 7 InvalidValue true].
Proof.
  split.
  - apply (proj2 (proj2 (@set_alert_rejects answering Z float_of_Z [0%Z; 0%Z] None 7
                           (@mkSession answering init tt []))) 0%Z 0%Z (of_Z 0));
      [reflexivity | reflexivity |]. unfold Qcle. vm_compute. discriminate.
  - apply (proj1 (proj2 (@set_alert_rejects answering Z float_of_Z [0%Z; (-1)%Z] None 7
                           (@mkSession answering init tt []))) 0%Z (-1)%Z);
      reflexivity.
Defined.

(** X17: [/setalert] with a positive number.  If the user is known or the
    fetch succeeds, the alert is stored as [set_price_alert] stores it and
    one confirmation is tried.  If the user is unknown and the fetch fails,
    nothing at all happens: the bot is unchanged and no reply is sent. *)
Theorem set_alert_accepts `{C : Chat} {token : Type} (float_of : token -> option Qc)
    (cmd arg : token) (t : Qc) (fetched : option Qc) (user_id : Z) (s : Session) :
  float_of arg = Some t ->
  (of_Z 0 < t)%Qc ->
  let r := set_alert float_of [cmd; arg] fetched user_id s in
  (is_Some (tracking_users (sbot s) !! user_id) \/ is_Some fetched ->
     r.1 = Returned /\
     sbot r.2 = (set_price_alert fetched user_id t (sbot s)).2 /\
     replies r.2 =
       replies s ++
       [mkReply user_id (AlertSet t) (reply_to (schan s) user_id (AlertSet t)).1]) /\
  (tracking_users (sbot s) !! user_id = None -> fetched = None ->
     r = (Returned, s)).
Proof.
  intros Hf Ht r. subst r. unfold set_alert.
  rewrite bool_decide_eq_false_2 by (simpl; lia).
  cbn [lookup list_lookup]. rewrite Hf.
  rewrite bool_decide_eq_false_2 by by apply Qclt_not_le.
  unfold set_price_alert. split.
  - intros [[ud Hud] | [p ->]].
    + by rewrite Hud.
    + by destruct (tracking_users (sbot s) !! user_id).
  - intros -> ->. cbn [fst snd]. by destruct s.
Qed.

Lemma set_alert_accepts_witness :
  @set_alert answering Z float_of_Z [0%Z; 50%Z] None 7
    (@mkSession answering init tt []) = (Returned, @mkSession answering init tt []) /\
  replies (@set_alert answering Z float_of_Z [0%Z; 50%Z] (Some (of_Z 40)) 7
             (@mkSession answering init tt [])).2 =
    [] ++ [mkReply 7 (AlertSet (of_Z 50)) true].
Proof.
  split.
  - apply (proj2 (@set_alert_accepts answering Z float_of_Z 0%Z 50%Z (of_Z 50) None 7
                    (@mkSession answering init tt []) eq_refl eq_refl));
      reflexivity.
  - apply (proj1 (@set_alert_accepts answering Z float_of_Z 0%Z 50%Z (of_Z 50)
                    (Some (of_Z 40)) 7 (@mkSession answering init tt [])
                    eq_refl eq_refl)).
    right. by eexists.
Defined.

(** X18: [/alerts] changes nothing and tries one reply: the no-alert text
    when the user has no record or no alert, and otherwise one line per
    stored alert, triggered or not, in the order of the list, numbered from
    1, with the target and the flag of the alert. *)
Theorem list_alerts_reply `{C : Chat} (user_id : Z) (s : Session) :
  let r := list_alerts user_id s in
  let als := from_option alerts [] (tracking_users (sbot s) !! user_id) in
  r.1 = Returned /\
  sbot r.2 = sbot s /\
  exists body,
    replies r.2 =
      replies s ++ [mkReply user_id body (reply_to (schan s) user_id body).1] /\
    (als = [] -> body = NoActiveAlerts) /\
    (als <> [] ->
       exists lines,
         body = AlertsText lines /\
         length lines = length als /\
         forall i a, als !! i = Some a ->
           lines !! i = Some (S i, target a, triggered a)).
Proof.
  intros r als. subst r als. unfold list_alerts.
  destruct (tracking_users (sbot s) !! user_id) as [ud |]; cbn [from_option].
  - destruct (alerts ud) as [| a0 als] eqn:Hal.
    + split; [done |]. split; [done |]. exists NoActiveAlerts. done.
    + split; [done |]. split; [done |]. eexists. split; [reflexivity |].
      split; [done |]. intros _. eexists. split; [reflexivity |].
      unfold alert_lines. split; [apply length_imap |].
      intros i a Hi. by rewrite list_lookup_imap, Hi.
  - split; [done |]. split; [done |]. exists NoActiveAlerts. done.
Qed.

Lemma list_alerts_reply_witness :
  exists body lines,
    replies (@list_alerts answering 7
               (@mkSession answering
                  (one_user 40 [mkAlert (of_Z 50) true; mkAlert (of_Z 60) false])
                  tt [])).2 = [] ++ [mkReply 7 body true] /\
    body = AlertsText lines /\
    lines !! 1 = Some (2, of_Z 60, false).
Proof.
  destruct (@list_alerts_reply answering 7
              (@mkSession answering
                 (one_user 40 [mkAlert (of_Z 50) true; mkAlert (of_Z 60) false]) tt []))
    as (_ & _ & body & Hr & _ & Hlines).
  destruct Hlines as (lines & Hbody & _ & Hline); [discriminate |].
  exists body, lines. split; [exact Hr |]. split; [exact Hbody |].
  apply (Hline 1 (mkAlert (of_Z 60) false)). reflexivity.
Defined.



(** X20: [/price] changes nothing and tries one reply: the price when the
    fetch gave a non-zero one, and the unable-to-fetch text when the fetch
    failed or gave zero; if the reply raises, the exception leaves the
    handler. *)
Theorem current_price_reply `{C : Chat} (fetched : option Qc) (user_id : Z)
    (s : Session) :
  let r := current_price fetched user_id s in
  sbot r.2 = sbot s /\
  exists body,
    replies r.2 =
      replies s ++ [mkReply user_id body (reply_to (schan s) user_id body).1] /\
    r.1 = (if (reply_to (schan s) user_id body).1 then Returned else Escaped) /\
    (forall p, body = CurrentPrice p <-> fetched = Some p /\ p <> of_Z 0) /\
    (body = UnableToFetch <-> fetched = None \/ fetched = Some (of_Z 0)).
Proof.
  intros r. subst r. unfold current_price.
  destruct fetched as [p |].
  - case_bool_decide as Hp.
    + split; [done |]. exists UnableToFetch. split; [done |]. split; [done |].
      split; [intros q; split; [done | intros [[= ->] Hq]; done] |].
      split; [intros _; right; by subst | done].
    + split; [done |]. exists (CurrentPrice p). split; [done |]. split; [done |].
      split; [intros q; split; [intros [= ->]; done | intros [[= ->] _]; done] |].
      split; [done | intros [[=] | [= ->]]; done].
  - split; [done |]. exists UnableToFetch. split; [done |]. split; [done |].
    split; [intros q; split; [done | intros [[=] _]] |].
    split; [intros _; by left | done].
Qed.

(** ** The price source *)

Module PriceSourceFacts.
Import stdpp.strings.
Import PriceSource.

Lemma py_in_getitem k v :
  py_in k v = Some true ->
  forall x, py_getitem v k = Some x ->
  exists fields, v = JObj fields /\ obj_get k fields = Some x.
Proof.
  intros _ x Hget. destruct v as [| | | | | fields]; simpl in Hget; try done.
  by exists fields.
Qed.

(** X21: [get_worldcoin_price()] answers a value other than [None] only
    when the request succeeded with a good status and a JSON body that is
    an object whose key [world-coin] holds an object whose key [usd] holds
    that value; and in that case it answers that value.  A body of another
    shape (a list or a string that contains the key, a number, null) gives
    [None]. *)
Theorem get_worldcoin_price_spec (o : http_outcome) (v : json) :
  v <> JNull ->
  (get_worldcoin_price o = v <->
   exists fields coin,
     o = Response true (Some (JObj fields)) /\
     obj_get "world-coin" fields = Some (JObj coin) /\
     obj_get "usd" coin = Some v).
Proof.
  intros Hv. split.
  - intros Hrun. unfold get_worldcoin_price in Hrun.
    destruct o as [| [] [data |]]; cbn [negb] in Hrun; try congruence.
    destruct (py_in "world-coin" data) as [[] |] eqn:Hin1; try congruence.
    destruct (py_getitem data "world-coin") as [coin |] eqn:Hget1; try congruence.
    destruct (py_in "usd" coin) as [[] |] eqn:Hin2; try congruence.
    destruct (py_getitem coin "usd") as [price |] eqn:Hget2; try congruence.
    subst price.
    destruct (py_in_getitem _ _ Hin1 _ Hget1) as (fields & -> & Hf1).
    destruct (py_in_getitem _ _ Hin2 _ Hget2) as (inner & -> & Hf2).
    by exists fields, inner.
  - intros (fields & coin & -> & Hf1 & Hf2). unfold get_worldcoin_price.
    cbn [negb py_in py_getitem]. rewrite Hf1.
    rewrite bool_decide_eq_true_2 by by eexists.
    cbn [py_in py_getitem]. rewrite Hf2.
    by rewrite bool_decide_eq_true_2 by by eexists.
Qed.

Lemma get_worldcoin_price_spec_witness :
  get_worldcoin_price
    (Response true
       (Some (JObj [("world-coin"%string, JObj [("usd"%string, JNum (dec 23 2))])]))) =
    JNum (dec 23 2) /\
  get_worldcoin_price (Response true (Some (JArr [JStr "world-coin"]))) = JNull.
Proof.
  split; [| reflexivity].
  apply (proj2 (get_worldcoin_price_spec
                  (Response true
                     (Some (JObj [("world-coin"%string,
                                   JObj [("usd"%string, JNum (dec 23 2))])])))
                  (JNum (dec 23 2)) ltac:(discriminate))).
  by eexists _, _.
Defined.

End PriceSourceFacts.
